(** * TagPilot_premium: the comment-rating scripts

    A shallow embedding of the Python scripts that send review text to a
    remote language model, parse the bracketed reply and persist the
    result:

    - [comment_rating_per_v2.py]  ([Module CommentRatingPerV2]):
      [rate_comment], [init_db], [write_rows];
    - [comment_rating_per.py]     ([Module CommentRatingPer]): [rate_comment];
    - [gender_prediction.py]      ([Module GenderPrediction]): [predict_gender];
    - [comment_rating.py]         ([Module CommentRating]): the batch script
      with its checkpoint function and final save.

    Python [str] values are lists of Unicode code points; effects (remote
    calls, printing, the file system, the DuckDB store) are threaded through
    a state-and-exception monad whose state survives a raised exception, as
    it does in Python. *)

From Stdlib Require Import ZArith NArith Ascii String DecimalString List Bool Lia.
From stdpp Require Import base option list gmap.
Import ListNotations.

Local Open Scope N_scope.

(** ** Python strings *)

(** A character is a code point; a [str] is a list of them. *)
Abbreviation char := N (only parsing).
Abbreviation str := (list N) (only parsing).

Definition chr (a : ascii) : char := N_of_ascii a.

(** Source literals are written as UTF-8 Rocq strings and decoded to code
    points.  Ill-formed input is cut at the first broken sequence; every
    literal of this file is well-formed. *)
Fixpoint utf8_decode (bs : list N) : str :=
  match bs with
  | [] => []
  | b0 :: r0 =>
      if b0 <? 128 then b0 :: utf8_decode r0
      else if b0 <? 224 then
        match r0 with
        | b1 :: r1 => ((b0 - 192) * 64 + (b1 - 128)) :: utf8_decode r1
        | _ => []
        end
      else if b0 <? 240 then
        match r0 with
        | b1 :: b2 :: r2 =>
            ((b0 - 224) * 4096 + (b1 - 128) * 64 + (b2 - 128)) :: utf8_decode r2
        | _ => []
        end
      else
        match r0 with
        | b1 :: b2 :: b3 :: r3 =>
            ((b0 - 240) * 262144 + (b1 - 128) * 4096 + (b2 - 128) * 64 + (b3 - 128))
              :: utf8_decode r3
        | _ => []
        end
  end.

Definition lit (s : string) : str :=
  utf8_decode (map N_of_ascii (list_ascii_of_string s)).
Arguments lit : simpl never.

Definition nl : char := 10.

(** [a == b] on strings. *)
Definition str_eqb (a b : str) : bool := bool_decide (a = b).

(** [str.isspace] for one character, which is also the class [\s] of a
    [str] pattern: the white-space table of CPython. *)
Definition is_space (c : char) : bool :=
  ((9 <=? c) && (c <=? 13)) || ((28 <=? c) && (c <=? 32))
  || (c =? 133) || (c =? 160) || (c =? 5760)
  || ((8192 <=? c) && (c <=? 8202))
  || (c =? 8232) || (c =? 8233) || (c =? 8239) || (c =? 8287) || (c =? 12288).

Fixpoint lstrip (s : str) : str :=
  match s with
  | c :: s' => if is_space c then lstrip s' else s
  | [] => []
  end.

Definition rstrip (s : str) : str := rev (lstrip (rev s)).

(** [s.strip()] *)
Definition strip (s : str) : str := rstrip (lstrip s).

(** The code points of the digit zero of every decimal-digit run (general
    category Nd, Unicode 14 as shipped with CPython 3.11).  A run is ten
    consecutive code points, zero to nine. *)
Definition decimal_zeros : list N :=
  [48; 1632; 1776; 1984; 2406; 2534; 2662; 2790; 2918; 3046; 3174; 3302;
   3430; 3558; 3664; 3792; 3872; 4160; 4240; 6112; 6160; 6470; 6608; 6784;
   6800; 6992; 7088; 7232; 7248; 42528; 43216; 43264; 43472; 43504; 43600;
   44016; 65296; 66720; 68912; 69734; 69872; 69942; 70096; 70384; 70736;
   70864; 71248; 71360; 71472; 71904; 72016; 72784; 73040; 73120; 92768;
   92864; 93008; 120782; 120792; 120802; 120812; 120822; 123200; 123632;
   125264; 130032].

Fixpoint decimal_in (zeros : list N) (c : char) : option Z :=
  match zeros with
  | [] => None
  | z :: zs =>
      if (z <=? c) && (c <=? z + 9) then Some (Z.of_N (c - z))
      else decimal_in zs c
  end.

(** The decimal value of a character, when it has one ([str.isdecimal]). *)
Definition decimal_value (c : char) : option Z := decimal_in decimal_zeros c.

(** The class [\d] of a [str] pattern. *)
Definition is_decimal (c : char) : bool :=
  match decimal_value c with Some _ => true | None => false end.

(** [s.startswith(p)] *)
Fixpoint startswith (s p : str) {struct p} : bool :=
  match p, s with
  | [], _ => true
  | _ :: _, [] => false
  | a :: p', b :: s' => (a =? b) && startswith s' p'
  end.

(** [needle in hay] *)
Fixpoint contains (needle hay : str) : bool :=
  startswith hay needle
  || match hay with
     | [] => false
     | _ :: hay' => contains needle hay'
     end.

(** ** Exceptions and the effect monad *)

(** The exception classes the scripts meet.  [NonException] stands for the
    classes outside [Exception] ([KeyboardInterrupt], [SystemExit]), which
    an [except Exception] clause lets through. *)
Inductive exn_class :=
| ValueError
| IndexError
| AttributeError
| KeyError
| CatalogError
| OtherException
| NonException.

Record exn := Exn { exn_class_of : exn_class; exn_str : str }.

Definition is_Exception (e : exn) : bool :=
  match exn_class_of e with
  | NonException => false
  | _ => true
  end.

Inductive outcome (A : Type) :=
| Returned (a : A)
| Raised (e : exn).
Arguments Returned {A} a.
Arguments Raised {A} e.

Definition M (S A : Type) : Type := S -> outcome A * S.

Definition ret {S A} (a : A) : M S A := fun s => (Returned a, s).

Definition bind {S A B} (m : M S A) (f : A -> M S B) : M S B :=
  fun s =>
    match m s with
    | (Returned a, s') => f a s'
    | (Raised e, s') => (Raised e, s')
    end.

Definition raise {S A} (e : exn) : M S A := fun s => (Raised e, s).

(** [try: body / except Exception as e: handler e] *)
Definition try_except {S A} (body : M S A) (handler : exn -> M S A) : M S A :=
  fun s =>
    match body s with
    | (Returned a, s') => (Returned a, s')
    | (Raised e, s') => if is_Exception e then handler e s' else (Raised e, s')
    end.

Definition gets {S A} (f : S -> A) : M S A := fun s => (Returned (f s), s).
Definition modify {S} (f : S -> S) : M S unit := fun s => (Returned tt, f s).

Declare Scope py_scope.
Delimit Scope py_scope with py.
Notation "x <- m ;; k" := (bind m (fun x => k))
  (at level 100, m at next level, right associativity) : py_scope.
Notation "m ;; k" := (bind m (fun _ => k))
  (at level 100, right associativity) : py_scope.

Local Open Scope py_scope.

(** ** Regular expressions: the backtracking matcher of [re]

    Each pattern item takes the continuation that matches the rest of the
    pattern, so the first success found is the one [re] reports. *)
Module Re.

(** One literal character. *)
Definition one {A} (c : char) (k : str -> option A) (s : str) : option A :=
  match s with
  | c' :: s' => if c' =? c then k s' else None
  | [] => None
  end.

(** One character of a class, captured. *)
Definition class {A} (p : char -> bool) (k : char -> str -> option A)
    (s : str) : option A :=
  match s with
  | c :: s' => if p c then k c s' else None
  | [] => None
  end.

(** [x*] for a class [x], greedy: the longest run first, then shorter. *)
Fixpoint star {A} (p : char -> bool) (k : str -> option A) (s : str)
    : option A :=
  match s with
  | c :: s' =>
      if p c then
        match star p k s' with
        | Some r => Some r
        | None => k s
        end
      else k s
  | [] => k []
  end.

(** [(x+?)] for a class [x], lazy and captured: one character first, then
    one more each time the rest of the pattern fails.  [acc] is what the
    group holds so far. *)
Fixpoint plus_lazy {A} (p : char -> bool) (k : str -> str -> option A)
    (acc : str) (s : str) : option A :=
  match s with
  | c :: s' =>
      if p c then
        match k (acc ++ [c]) s' with
        | Some r => Some r
        | None => plus_lazy p k (acc ++ [c]) s'
        end
      else None
  | [] => None
  end.

(** [.] without DOTALL: anything but a line feed. *)
Definition dot (c : char) : bool := negb (c =? nl).

(** [$] without MULTILINE: the end of the string, or just before a line
    feed that ends the string. *)
Definition dollar (s : str) : bool :=
  match s with
  | [] => true
  | [c] => c =? nl
  | _ => false
  end.

End Re.

(** [int(s)] for a string made of decimal digits only, which is all that
    a [\d] group can hold; anything else raises [ValueError]. *)
Fixpoint int_digits (acc : Z) (s : str) : option Z :=
  match s with
  | [] => Some acc
  | c :: s' =>
      match decimal_value c with
      | Some v => int_digits (10 * acc + v)%Z s'
      | None => None
      end
  end.

Definition int_ {S} (s : str) : M S Z :=
  match s with
  | [] => raise (Exn ValueError (lit "invalid literal for int() with base 10: ''"))
  | _ =>
      match int_digits 0%Z s with
      | Some z => ret z
      | None =>
          raise (Exn ValueError
                   (lit "invalid literal for int() with base 10: '" ++ s ++ lit "'"))
      end
  end.

(** ** The world outside the scripts *)

(** A chat-completion request: the model name, the role-tagged messages and
    the keyword options given besides them. *)
Record request := Request {
  req_model : str;
  req_messages : list (str * str);
  req_options : list (str * str)
}.

(** What the remote call yields: a completion, given by the [content] of
    the message of each choice ([None] when the message has no content),
    or an exception. *)
Inductive api_outcome :=
| Completion (choices : list (option str))
| ApiFault (e : exn).

(** A persisted row of the rating table and the table with its identity
    counter. *)
Record rating_row := RatingRow {
  row_id : Z;
  row_title : str;
  row_body : str;
  row_property : str;
  row_score : option Z;
  row_reason : str;
  row_raw_resp : str;
  row_scored_at : Z
}.

Record table := Table { table_rows : list rating_row; table_next_id : Z }.

(** The dictionaries [main] hands to [write_rows]: the six keys it always
    sets. *)
Record row_dict := RowDict {
  d_title : str;
  d_body : str;
  d_property : str;
  d_score : option Z;
  d_reason : str;
  d_raw_resp : str
}.

(** A DuckDB database: its tables by name.  What DuckDB makes of an SQL
    text is not in the scripts: given the text, the frames registered on
    the connection and the database, it returns or raises, and leaves a
    database. *)
Definition database := gmap (list N) table.

Definition sql_engine :=
  str -> gmap (list N) (list row_dict) -> database -> outcome unit * database.

Record world := World {
  remote : nat -> request -> api_outcome; (* reply to the n-th request *)
  requests : list request;                (* requests issued, oldest first *)
  stdout : list str;                      (* lines printed, oldest first *)
  files : gmap (list N) database;         (* DuckDB files by path *)
  views : gmap (list N) (list row_dict);  (* frames registered on the connection *)
  sql_log : list str;                     (* texts passed to execute, oldest first *)
  duckdb : sql_engine                     (* what DuckDB makes of a text *)
}.

Definition with_requests (r : list request) (w : world) : world :=
  World (remote w) r (stdout w) (files w) (views w) (sql_log w) (duckdb w).
Definition with_stdout (o : list str) (w : world) : world :=
  World (remote w) (requests w) o (files w) (views w) (sql_log w) (duckdb w).
Definition with_files (f : gmap (list N) database) (w : world) : world :=
  World (remote w) (requests w) (stdout w) f (views w) (sql_log w) (duckdb w).
Definition with_views (v : gmap (list N) (list row_dict)) (w : world) : world :=
  World (remote w) (requests w) (stdout w) (files w) v (sql_log w) (duckdb w).
Definition with_sql_log (l : list str) (w : world) : world :=
  World (remote w) (requests w) (stdout w) (files w) (views w) l (duckdb w).

(** [print(line)] *)
Definition print (line : str) : M world unit :=
  modify (fun w => with_stdout (stdout w ++ [line]) w).

(** [client.chat.completions.create(...)], one blocking attempt. *)
Definition chat_completions_create (req : request) : M world (list (option str)) :=
  fun w =>
    let w' := with_requests (requests w ++ [req]) w in
    match remote w (length (requests w)) req with
    | Completion choices => (Returned choices, w')
    | ApiFault e => (Raised e, w')
    end.

(** [completion.choices[0].message.content.strip()] *)
Definition first_content_strip {S} (choices : list (option str)) : M S str :=
  match choices with
  | [] => raise (Exn IndexError (lit "list index out of range"))
  | None :: _ =>
      raise (Exn AttributeError (lit "'NoneType' object has no attribute 'strip'"))
  | Some content :: _ => ret (strip content)
  end.

Definition unlines (ls : list str) : str :=
  concat (map (fun l => l ++ [nl]) ls).

(** ** comment_rating_per_v2.py *)
Module CommentRatingPerV2.

Definition DB_PATH : str := lit "amazon.duckdb".
Definition TABLE_NAME : str := lit "comment_score".

Definition message_text (title body product_line_name propertyname propertytype : str)
    : str :=
  nl :: unlines [
    lit "The following is a comment on a " ++ product_line_name ++ lit " product:";
    lit "Title: " ++ title;
    lit "Body: " ++ body;
    lit "Evaluate the comment regarding the product's '" ++ propertyname
      ++ lit "', which is categorized as a " ++ propertytype ++ lit " feature.";
    lit "Use the following rules to respond:";
    lit "1. If the comment does not demonstrate the stated characteristic in any way, reply exactly [NaN,NaN] without any additional reasoning or explanation.";
    lit "2. Otherwise, rate your agreement with the statement on a scale from 1 to 5:";
    lit "- ‘5’ for Strongly Agree";
    lit "- ‘4’ for Agree";
    lit "- ‘3’ for Neither Agree nor Disagree";
    lit "- ‘2’ for Disagree";
    lit "- ‘1’ for Strongly Disagree";
    lit "Provide your rationale in the format: [Score, Reason].";
    lit "** Please double-check that if the comment does not demonstrate the stated characteristic in any way, your reply is exactly [NaN,NaN] with no extra explanation."
  ].

(** [re.match(r"\[\s*(\d)\s*,\s*(.+?)\s*\]$", raw)]: the two groups of the
    match, or [None]. *)
Definition score_pattern (raw : str) : option (str * str) :=
  Re.one (chr "[") (Re.star is_space (Re.class is_decimal (fun d =>
    Re.star is_space (Re.one (chr ",") (Re.star is_space
      (Re.plus_lazy Re.dot (fun reason =>
         Re.star is_space (Re.one (chr "]") (fun rest =>
           if Re.dollar rest then Some ([d], reason) else None)))
         [])))))) raw.

Definition the_request (model message : str) : request :=
  Request model
    [(lit "system", lit "Forget any previous information.");
     (lit "user", message)]
    [].

(** The result is [(score, reason, raw_resp)].  The client is built from
    [gpt_key] before the [try]; with a key given it does not fail. *)
Definition rate_comment (title body product_line_name propertyname propertytype
    gpt_key model : str) : M world (option Z * str * str) :=
  let message := message_text title body product_line_name propertyname propertytype in
  try_except
    (resp <- chat_completions_create (the_request model message) ;;
     raw <- first_content_strip resp ;;
     if str_eqb raw (lit "[NaN,NaN]") then ret (None, [], raw)
     else
       match score_pattern raw with
       | None => raise (Exn ValueError (lit "Unexpected format: " ++ raw))
       | Some (g1, g2) =>
           score <- int_ g1 ;;
           ret (Some score, g2, raw)
       end)
    (fun e =>
       print (lit "GPT error: " ++ exn_str e) ;;
       ret (None, [], lit "Error: " ++ exn_str e)).

(** A connection is known by the file it is open on. *)
Record connection := Connection { con_path : str }.

Definition path_exists (path : str) : M world bool :=
  gets (fun w => bool_decide (is_Some (files w !! path))).

Definition os_remove (path : str) : M world unit :=
  modify (fun w => with_files (delete path (files w)) w).

(** [duckdb.connect(path)]: opens the file, creating an empty database
    when there is none. *)
Definition duckdb_connect (path : str) : M world connection :=
  fun w =>
    match files w !! path with
    | Some _ => (Returned (Connection path), w)
    | None => (Returned (Connection path), with_files (<[path := ∅]> (files w)) w)
    end.

(** The text of the [CREATE TABLE] of [init_db], an f-string with the
    table name spliced in. *)
Definition create_table_sql (table_name : str) : str :=
  nl :: unlines [
    lit "        CREATE TABLE IF NOT EXISTS " ++ table_name ++ lit " (";
    lit "          id BIGINT GENERATED ALWAYS AS IDENTITY,";
    lit "          title     TEXT,";
    lit "          body      TEXT,";
    lit "          property  TEXT,";
    lit "          score     INTEGER,";
    lit "          reason    TEXT,";
    lit "          raw_resp  TEXT,";
    lit "          scored_at TIMESTAMP DEFAULT CURRENT_TIMESTAMP";
    lit "        )"
  ] ++ lit "    ".

(** The text of the [INSERT] of [write_rows]. *)
Definition insert_sql (table_name : str) : str :=
  nl :: unlines [
    lit "        INSERT INTO " ++ table_name;
    lit "        SELECT title, body, property, score, reason, raw_resp FROM tmp"
  ] ++ lit "    ".

(** [con.execute(sql)]: the text goes to DuckDB as it is, with the frames
    registered at that moment; an exception of DuckDB is raised to the
    caller. *)
Definition execute (con : connection) (sql : str) : M world unit :=
  fun w =>
    let w1 := with_sql_log (sql_log w ++ [sql]) w in
    match files w !! con_path con with
    | Some db =>
        let made := duckdb w sql (views w) db in
        (fst made, with_files (<[con_path con := snd made]> (files w)) w1)
    | None =>
        (Raised (Exn OtherException (lit "IO Error: database file is gone")), w1)
    end.

Definition register (con : connection) (name : str) (df : list row_dict)
    : M world unit :=
  modify (fun w => with_views (<[name := df]> (views w)) w).

Definition unregister (con : connection) (name : str) : M world unit :=
  modify (fun w => with_views (delete name (views w)) w).

Definition init_db (db_path table_name : str) (overwrite : bool)
    : M world connection :=
  present <- path_exists db_path ;;
  (if overwrite && present then os_remove db_path else ret tt) ;;
  con <- duckdb_connect db_path ;;
  execute con (create_table_sql table_name) ;;
  ret con.

Definition write_rows (con : connection) (rows : list row_dict) (table_name : str)
    : M world unit :=
  match rows with
  | [] => ret tt
  | _ =>
      let df := rows in
      register con (lit "tmp") df ;;
      execute con (insert_sql table_name) ;;
      unregister con (lit "tmp")
  end.

(** The rows persisted in a table of a store; none when the file or the
    table is not there. *)
Definition stored_rows (w : world) (db_path table_name : str) : list rating_row :=
  match files w !! db_path with
  | Some db =>
      match db !! table_name with
      | Some tb => table_rows tb
      | None => []
      end
  | None => []
  end.

End CommentRatingPerV2.

(** ** comment_rating_per.py *)
Module CommentRatingPer.

Definition message_text (title body product_line_name property_name property_type : str)
    : str :=
  CommentRatingPerV2.message_text title body product_line_name property_name
    property_type.

(** The result is the trimmed reply, or the error message. *)
Definition rate_comment (title body product_line_name property_name property_type
    gpt_key model : str) : M world str :=
  let message := message_text title body product_line_name property_name property_type in
  try_except
    (completion <- chat_completions_create
                     (CommentRatingPerV2.the_request model message) ;;
     first_content_strip completion)
    (fun e => ret (lit "Error: " ++ exn_str e)).

End CommentRatingPer.

(** ** gender_prediction.py *)
Module GenderPrediction.
Section WithLower.

(** [str.lower] of the interpreter, a table of the Unicode database. *)
Variable lower : str -> str.

Definition the_request (name : str) : request :=
  let prompt :=
    lit "Based on the name '" ++ name
      ++ lit "', is this more likely to be a male or female name? "
      ++ lit "Answer with only 'male' or 'female'." in
  Request (lit "gpt-4-turbo")
    [(lit "system", lit "You are a helpful assistant that predicts gender from a name.");
     (lit "user", prompt)]
    [(lit "max_tokens", lit "10"); (lit "temperature", lit "0.0")].

(** The [try] covers the remote call only and its handler returns from
    the function; reading the reply comes after it, unprotected. *)
Definition predict_gender (name : str) : M world str :=
  attempt <- try_except
               (completion <- chat_completions_create (the_request name) ;;
                ret (inl completion))
               (fun e => ret (inr (lit "Error: " ++ exn_str e))) ;;
  match attempt with
  | inr message => ret message
  | inl completion =>
      stripped <- first_content_strip completion ;;
      let result := lower stripped in
      if contains (lit "female") result then ret (lit "female")
      else if contains (lit "male") result then ret (lit "male")
      else ret result
  end.

End WithLower.
End GenderPrediction.

(** [f"{n}"] for a non-negative [int]. *)
Definition repr_N (n : N) : str :=
  lit (DecimalString.NilZero.string_of_uint (N.to_uint n)).

Definition repr_nat (n : nat) : str := repr_N (N.of_nat n).

(** [f"{x}"] for a cell that may hold no value. *)
Definition format_cell (x : option (list N)) : str :=
  match x with
  | Some s => s
  | None => lit "None"
  end.

(** [os.path.join(a, b)] for a relative [b]. *)
Definition path_join (a b : str) : str :=
  match last a with
  | None => b
  | Some c => if c =? chr "/" then a ++ b else a ++ [chr "/"] ++ b
  end.

(** ** comment_rating.py

    The script is top-level code; its names ([Property_Rating], [count],
    [openai.api_key], ...) are fields of the state.  It runs with the
    modules it uses already bound in its namespace.  Messages that render a
    whole frame or a floating-point duration are left out of [stdout]; the
    extraction of bare numbers that follows the final save is not part of
    this model. *)
Module CommentRating.

(** A frame with the default index: the column labels and, per row, the
    cells that hold a value (a missing cell is NA). *)
Record frame := Frame {
  columns : list (list N);
  data : list (gmap (list N) (list N))
}.

(** What the machine gives the script and never changes. *)
Record oracle := Oracle {
  GPTfolder : str;                      (* os.path.abspath('../../data/GPTComments/') *)
  dotenv : gmap (list N) (list N);      (* the entries of the .env file *)
  feather_in : str -> outcome frame;    (* pd.read_feather *)
  excel_in : str -> outcome (list (list N)); (* the 'Property' column of pd.read_excel *)
  disk : nat -> str -> option exn;      (* the fault of the n-th file write, if any *)
  clock : nat -> str                    (* datetime.now().strftime(...) at the n-th write *)
}.

Record state := State {
  io : world;
  environ : gmap (list N) (list N);
  dirs : gset (list N);
  writes : list (list N * option frame); (* file writes tried: path and, when
                                            it went through, the content *)
  Property_Rating : frame;
  Property : list (list N);
  count : N;
  openai_api_key : option (list N)
}.

Definition with_io (x : world) (s : state) : state :=
  State x (environ s) (dirs s) (writes s) (Property_Rating s) (Property s)
        (count s) (openai_api_key s).
Definition with_environ (x : gmap (list N) (list N)) (s : state) : state :=
  State (io s) x (dirs s) (writes s) (Property_Rating s) (Property s)
        (count s) (openai_api_key s).
Definition with_dirs (x : gset (list N)) (s : state) : state :=
  State (io s) (environ s) x (writes s) (Property_Rating s) (Property s)
        (count s) (openai_api_key s).
Definition with_writes (x : list (list N * option frame)) (s : state) : state :=
  State (io s) (environ s) (dirs s) x (Property_Rating s) (Property s)
        (count s) (openai_api_key s).
Definition with_Property_Rating (x : frame) (s : state) : state :=
  State (io s) (environ s) (dirs s) (writes s) x (Property s)
        (count s) (openai_api_key s).
Definition with_Property (x : list (list N)) (s : state) : state :=
  State (io s) (environ s) (dirs s) (writes s) (Property_Rating s) x
        (count s) (openai_api_key s).
Definition with_count (x : N) (s : state) : state :=
  State (io s) (environ s) (dirs s) (writes s) (Property_Rating s) (Property s)
        x (openai_api_key s).
Definition with_openai_api_key (x : option (list N)) (s : state) : state :=
  State (io s) (environ s) (dirs s) (writes s) (Property_Rating s) (Property s)
        (count s) x.

(** Run an action of the outer world inside the script. *)
Definition lift {A} (m : M world A) : M state A :=
  fun s =>
    match m (io s) with
    | (r, w') => (r, with_io w' s)
    end.

Definition product : str := lit "開瓶器".
Definition filename : str := lit "007_Bottle_Openers".
Definition asin_list : list (list N) :=
  [lit "B0001YH1A2"; lit "B08S359FPG"; lit "B01N5SZTPR"; lit "B0B2NZTQGQ";
   lit "B09FPL9GQT"; lit "B0BL82L4YV"; lit "B0BL7YBFCL"; lit "B09ZKVP14F";
   lit "B007CE373O"].
Definition max_count : N := 1000001.

(** [series[label]]: the cell, or [KeyError] when there is no such label. *)
Definition getitem {S : Type} (cols : list (list N)) (row : gmap (list N) (list N))
    (label : str) : M S (option (list N)) :=
  if bool_decide (label ∈ cols) then ret (row !! label)
  else raise (Exn KeyError (lit "'" ++ label ++ lit "'")).

Section WithOracle.
Variable o : oracle.

Definition rating_path_feather : str :=
  GPTfolder o ++ lit "/Comment_Property_Rating_" ++ filename ++ lit "_Dta.feather".
Definition rating_path_xlsx : str :=
  GPTfolder o ++ lit "/Comment_Property_Rating_" ++ filename ++ lit "_Dta.xlsx".
Definition property_path_xlsx : str :=
  GPTfolder o ++ lit "/Comment_Property_" ++ filename ++ lit "_Dta.xlsx".
Definition temp_folder_path : str := path_join (GPTfolder o) (lit "temp").

(** [load_dotenv()]: the entries of the file, the variables already set
    keeping their value. *)
Definition load_dotenv : M state unit :=
  modify (fun s => with_environ (environ s ∪ dotenv o) s).

Definition getenv (name : str) : M state (option (list N)) :=
  gets (fun s => environ s !! name).

(** [df.to_feather(path)] and [df.to_excel(path, index=False)]: one write
    of a file, which the disk may refuse. *)
Definition write_file (df : frame) (path : str) : M state unit :=
  fun s =>
    match disk o (length (writes s)) path with
    | Some e => (Raised e, with_writes (writes s ++ [(path, None)]) s)
    | None => (Returned tt, with_writes (writes s ++ [(path, Some df)]) s)
    end.

Definition to_feather := write_file.
Definition to_excel := write_file.

Definition save_to_feather_with_timestamp (df : frame) (folder_path : str)
    : M state unit :=
  timestamp <- gets (fun s => clock o (length (writes s))) ;;
  let file_path := path_join folder_path (timestamp ++ lit ".feather") in
  try_except
    (to_feather df file_path ;;
     lift (print (lit "Data successfully saved to " ++ file_path)))
    (fun e => lift (print (lit "Error saving file: " ++ exn_str e))).

Definition prompt_text (body title : option (list N)) (propertyname : str) : str :=
  lit "「" ++ format_cell body ++ lit "」, 顧客評論標題：「" ++ format_cell title
    ++ lit "」。" ++ [nl]
    ++ lit "請問這個人覺得這個產品的「" ++ propertyname ++ lit "」如何？" ++ [nl]
    ++ lit "請針對符合該屬性的程度評分：0 代表非常不符合、10 代表非常符合；"
    ++ lit "如果評論中未提及該屬性，請填入 NaN。" ++ [nl]
    ++ lit "請回傳結果格式為「分數,理由」。".

(** [Property_Rating.at[indexc, propertyname] = response_text] *)
Definition set_at (indexc : nat) (propertyname response_text : str) : M state unit :=
  modify (fun s =>
    with_Property_Rating
      (Frame (columns (Property_Rating s))
             (alter (insert propertyname response_text) indexc
                    (data (Property_Rating s)))) s).

(** The body of the inner loop for one row of the iteration. *)
Definition rate_row (propertyname : str) (cols : list (list N)) (indexc : nat)
    (rowc : gmap (list N) (list N)) : M state unit :=
  asin <- getitem cols rowc (lit "ASIN") ;;
  if bool_decide (asin ∈ (Some <$> asin_list)) then
    current <- getitem cols rowc propertyname ;;
    match current with
    | Some _ => ret tt
    | None =>
        try_except
          (body <- getitem cols rowc (lit "Body") ;;
           title <- getitem cols rowc (lit "Title") ;;
           let prompt := prompt_text body title propertyname in
           completion <- lift (chat_completions_create
                                 (Request (lit "gpt-4o-mini") [(lit "user", prompt)] [])) ;;
           response_text <- first_content_strip completion ;;
           set_at indexc propertyname response_text ;;
           modify (fun s => with_count (count s + 1) s) ;;
           n <- gets count ;;
           if n mod 20 =? 1 then
             df <- gets Property_Rating ;;
             save_to_feather_with_timestamp df temp_folder_path ;;
             lift (print (lit "正在處理屬性 '" ++ propertyname ++ lit "'；目前索引："
                            ++ repr_nat indexc ++ lit "；累計評分：" ++ repr_N n))
           else ret tt)
          (fun e =>
             lift (print (lit "Error processing index " ++ repr_nat indexc
                            ++ lit ": " ++ exn_str e)))
    end
  else ret tt.

(** The inner loop over the rows the iteration yields; both [break]s
    leave it once [count] has reached [max_count]. *)
Fixpoint rate_rows (propertyname : str) (cols : list (list N))
    (rows : list (nat * gmap (list N) (list N))) : M state unit :=
  match rows with
  | [] => ret tt
  | (indexc, rowc) :: rest =>
      rate_row propertyname cols indexc rowc ;;
      n <- gets count ;;
      if max_count <=? n then ret tt
      else rate_rows propertyname cols rest
  end.

(** [Property_Rating.iterrows()]: the rows as they are when the loop
    starts, with their position. *)
Definition iterrows (df : frame) : list (nat * gmap (list N) (list N)) :=
  imap (fun i row => (i, row)) (data df).

(** The body of the outer loop for one property. *)
Definition rate_property (propertyname : str) : M state unit :=
  lift (print ([nl] ++ lit "正在評分屬性：" ++ propertyname)) ;;
  df <- gets Property_Rating ;;
  (if bool_decide (propertyname ∈ columns df) then ret tt
   else modify (with_Property_Rating
                  (Frame (columns df ++ [propertyname])
                         (delete propertyname <$> data df)))) ;;
  modify (with_count 0) ;;
  df <- gets Property_Rating ;;
  rate_rows propertyname (columns df) (iterrows df) ;;
  n <- gets count ;;
  lift (print (lit "屬性 " ++ propertyname ++ lit " 評分完成，共 " ++ repr_N n
                 ++ lit " 筆評分。")).

Fixpoint rate_properties (names : list (list N)) : M state unit :=
  match names with
  | [] => ret tt
  | propertyname :: rest => rate_property propertyname ;; rate_properties rest
  end.

(** The two statements under "儲存最終結果". *)
Definition final_save : M state unit :=
  df <- gets Property_Rating ;;
  to_feather df rating_path_feather ;;
  to_excel df rating_path_xlsx.

Definition make_temp_folder : M state unit :=
  present <- gets (fun s => bool_decide (temp_folder_path ∈ dirs s)) ;;
  if present then
    lift (print (lit "Temp folder already exists at " ++ temp_folder_path))
  else
    modify (fun s => with_dirs ({[temp_folder_path]} ∪ dirs s) s) ;;
    lift (print (lit "Created temp folder at " ++ temp_folder_path)).

Definition read_inputs : M state unit :=
  lift (print (lit "讀取商品評論資料...")) ;;
  df <- (fun s => (feather_in o rating_path_feather, s)) ;;
  modify (with_Property_Rating df) ;;
  lift (print (lit "總共有 " ++ repr_nat (length (data df)) ++ lit " 筆評論資料。")) ;;
  lift (print (lit "讀取屬性定義檔...")) ;;
  names <- (fun s => (excel_in o property_path_xlsx, s)) ;;
  modify (with_Property names).

(** The credential check of the script. *)
Definition configure : M state unit :=
  api_key <- getenv (lit "OPENAI_API_KEY") ;;
  match api_key with
  | None =>
      raise (Exn ValueError
               (lit "API key not found. Please set the OPENAI_API_KEY environment variable."))
  | Some key => modify (with_openai_api_key (Some key))
  end.

(** The script, from its first statement to the final save. *)
Definition script : M state unit :=
  load_dotenv ;;
  make_temp_folder ;;
  read_inputs ;;
  configure ;;
  names <- gets Property ;;
  rate_properties names ;;
  lift (print (lit "儲存最終結果...")) ;;
  final_save.

End WithOracle.

End CommentRating.

(** ** comment_rating_per.py, the copy under 99_archive *)
Module CommentRatingPerArchive.

Definition message_text (title body propertyname propertytype : str) : str :=
  lit "Title: " ++ title ++ [nl]
  ++ lit "Body: " ++ body ++ [nl]
  ++ lit "Evaluate the comment regarding the product's '" ++ propertyname
  ++ lit "', which is categorized as a " ++ propertytype ++ lit " feature." ++ [nl]
  ++ lit "Use the following rules to respond:" ++ [nl]
  ++ lit "1. If the comment does not demonstrate the stated characteristic in any way, reply exactly [NaN,NaN] without any additional reasoning or explanation." ++ [nl]
  ++ lit "2. Otherwise, rate your agreement with the statement on a scale from 0 to 10, where:" ++ [nl]
  ++ lit "   10: Strongly Agree" ++ [nl]
  ++ lit "   9: Very Strongly Agree" ++ [nl]
  ++ lit "   8: Strongly Agree" ++ [nl]
  ++ lit "   7: Moderately Agree" ++ [nl]
  ++ lit "   6: Somewhat Agree" ++ [nl]
  ++ lit "   5: Neither Agree nor Disagree" ++ [nl]
  ++ lit "   4: Somewhat Disagree" ++ [nl]
  ++ lit "   3: Moderately Disagree" ++ [nl]
  ++ lit "   2: Disagree" ++ [nl]
  ++ lit "   1: Very Disagree" ++ [nl]
  ++ lit "   0: Strongly Disagree" ++ [nl]
  ++ lit "Provide your rationale in the format: [Score, Reason]." ++ [nl]
  ++ lit "** Please double-check that if the comment does not demonstrate the stated characteristic in any way, your reply is exactly [NaN,NaN] with no extra explanation.".

(** The result is the trimmed reply, or the error message. *)
Definition rate_comment (title body propertyname propertytype gpt_key model : str)
    : M world str :=
  let message := message_text title body propertyname propertytype in
  try_except
    (completion <- chat_completions_create
                     (CommentRatingPerV2.the_request model message) ;;
     first_content_strip completion)
    (fun e => ret (lit "Error: " ++ exn_str e)).

End CommentRatingPerArchive.

(** ** comment_rating_per_v2.py: [main]

    [main] up to and including [write_rows]; the two statements after it
    print the table and close the connection.  [time.sleep] has no effect
    on the state. *)
Module CommentRatingPerV2Main.
Import CommentRatingPerV2.

(** A comment of the list: ["title"] and ["body"]. *)
Record comment := Comment { c_title : str; c_body : str }.

Definition GPT_KEY : str := lit "sk-...".
Definition PRODUCT : str := lit "Sympt-X".
Definition PROP_NAME : str := lit "balance".
Definition PROP_TYPE : str := lit "brand personality".

Definition comments : list comment :=
  [Comment (lit "Love it") (lit "Finally broke down and bought…");
   Comment (lit "Too salty") (lit "I can’t take it every day…")].

(** The [for c in comments] loop: [rows] is the list built so far. *)
Fixpoint rate_all (cs : list comment) (rows : list row_dict)
    : M world (list row_dict) :=
  match cs with
  | [] => ret rows
  | c :: rest =>
      r <- rate_comment (c_title c) (c_body c) PRODUCT PROP_NAME PROP_TYPE
             GPT_KEY (lit "o4-mini") ;;
      let '(score, reason, raw) := r in
      rate_all rest
        (rows ++ [RowDict (c_title c) (c_body c) PROP_NAME score reason raw])
  end.

Definition main (db_path table_name : str) (overwrite : bool) : M world connection :=
  con <- init_db db_path table_name overwrite ;;
  rows <- rate_all comments [] ;;
  write_rows con rows table_name ;;
  ret con.

End CommentRatingPerV2Main.

(** ** comment_rating.py: the numbers drawn from the replies

    [find_number_or_nan] and [process_element], which the script applies to
    every cell of the property columns after the final save.  A cell is a
    string or not ([None] here); the result is an integer or NaN ([None]). *)
Module CommentRatingNumbers.
Section WithTables.

(** [str.lower] and the class [\w] of a [str] pattern, tables of the
    Unicode database. *)
Variable lower : str -> str.
Variable is_word : char -> bool.

Definition word_at (c : option N) : bool :=
  match c with
  | Some c => is_word c
  | None => false
  end.

(** [\b] between the character before and the character after. *)
Definition boundary (before after : option N) : bool :=
  xorb (word_at before) (word_at after).

(** [\[0-9\]] *)
Definition is_0_9 (c : char) : bool := (48 <=? c) && (c <=? 57).

(** [(10|\[0-9\])\b] at the head of [s]: the first alternative, then the
    second. *)
Definition ten_or_digit (s : str) : option (list N) :=
  match
    match s with
    | c1 :: c2 :: rest =>
        if (c1 =? chr "1") && (c2 =? chr "0") && boundary (Some c2) (head rest)
        then Some [c1; c2] else None
    | _ => None
    end
  with
  | Some m => Some m
  | None =>
      match s with
      | c :: rest =>
          if is_0_9 c && boundary (Some c) (head rest) then Some [c] else None
      | [] => None
      end
  end.

(** [re.search(r'\b(10|\[0-9\])\b', s)]: the match at the first position
    that has one; [before] is the character in front of [s]. *)
Fixpoint search (before : option N) (s : str) : option (list N) :=
  match (if boundary before (head s) then ten_or_digit s else None) with
  | Some m => Some m
  | None =>
      match s with
      | [] => None
      | c :: s' => search (Some c) s'
      end
  end.

Definition find_number_or_nan {S : Type} (s : option (list N)) : M S (option Z) :=
  match s with
  | None => ret None
  | Some s =>
      if contains (lit "nan") (lower s) then ret None
      else
        match search None s with
        | Some m => n <- int_ m ;; ret (Some n)
        | None => ret None
        end
  end.

(** [re.split(r',|，', x)]; [cur] is the piece being read. *)
Fixpoint re_split (cur : str) (x : str) : list (list N) :=
  match x with
  | [] => [cur]
  | c :: x' =>
      if (c =? chr ",") || (c =? 65292) then cur :: re_split [] x'
      else re_split (cur ++ [c]) x'
  end.

Definition process_element {S : Type} (x : option (list N)) : M S (option Z) :=
  match x with
  | Some x =>
      match re_split [] x with
      | first :: _ => find_number_or_nan (Some first)
      | [] => raise (Exn IndexError (lit "list index out of range"))
      end
  | None => ret None
  end.

End WithTables.
End CommentRatingNumbers.

(** * The vocabulary of the statements *)

Import CommentRatingPerV2.
Import CommentRating.

(** The reply [\[ w1 d w2 , w3 text w4 \]], the [w]s being white space. *)
Definition bracketed (w1 : list N) (d : N) (w2 w3 text w4 : list N) : list N :=
  chr "[" :: w1 ++ d :: w2 ++ chr "," :: w3 ++ text ++ w4 ++ [chr "]"].

(** What the remote call and the reading of its first choice give: the
    trimmed content, or the exception raised on the way. *)
Definition reply_of (out : api_outcome) : outcome (list N) :=
  match out with
  | ApiFault e => Raised e
  | Completion choices => fst (first_content_strip choices tt)
  end.

(** A DuckDB that refuses every text with [e] and changes nothing, and
    one that accepts every text and changes nothing. *)
Definition refusing (e : exn) : sql_engine := fun _ _ db => (Raised e, db).

Definition accepting : sql_engine := fun _ _ db => (Returned tt, db).

Definition refusal : exn := Exn OtherException (lit "duckdb.Error").

(** A world in which every request gets the same outcome, with a DuckDB
    that refuses every text. *)
Definition world0 (reply : api_outcome) : world :=
  World (fun _ _ => reply) [] [] ∅ ∅ [] (refusing refusal).

(** The rows a database holds under a table name. *)
Definition rows_in (db : database) (table_name : list N) : list rating_row :=
  match db !! table_name with
  | Some tb => table_rows tb
  | None => []
  end.

(** How a call that ends with an [execute] ends: with its own value when
    DuckDB returned, with the exception of DuckDB when it raised. *)
Definition handed_on {A : Type} (r : outcome unit) (a : A) : outcome A :=
  match r with
  | Returned _ => Returned a
  | Raised e => Raised e
  end.

(** The scenario of the specification: one review and the attribute it is
    rated on. *)
Definition rate_love_it : M world (option Z * list N * list N) :=
  rate_comment (lit "Love it") (lit "Works great") (lit "Sympt-X") (lit "balance")
    (lit "brand personality") (lit "sk-...") (lit "o4-mini").

Definition love_it_request : request :=
  the_request (lit "o4-mini")
    (message_text (lit "Love it") (lit "Works great") (lit "Sympt-X") (lit "balance")
       (lit "brand personality")).

(** A store with one rated comment in it. *)
Definition one_row : rating_row :=
  RatingRow 1 (lit "Love it") (lit "Works great") (lit "balance") (Some 4%Z)
    (lit "Mentions balance positively") (lit "[4,Mentions balance positively]") 0.

Definition one_row_store : world :=
  with_files {[ DB_PATH := {[ TABLE_NAME := Table [one_row] 2 ]} ]}
    (world0 (Completion [])).

(** [str.lower] on the ASCII letters, for running the function on plain
    replies. *)
Definition ascii_lower (s : list N) : list N :=
  map (fun c => if (65 <=? c) && (c <=? 90) then c + 32 else c) s.

(** The disk only ever fails with exceptions of class [Exception] (an
    [OSError] for a full disk or a refused permission). *)
Definition ordinary_disk (o : oracle) : Prop :=
  forall n path e, disk o n path = Some e -> is_Exception e = true.

(** The same machine with a disk that never fails. *)
Definition calm (o : oracle) : oracle :=
  Oracle (GPTfolder o) (dotenv o) (feather_in o) (excel_in o) (fun _ _ => None)
         (clock o).

(** Two states at the same point of the batch: the same frame, counter and
    property list, the same requests sent to the same remote model.  What
    was printed and what was written may differ. *)
Definition same_progress (s1 s2 : state) : Prop :=
  Property_Rating s1 = Property_Rating s2
  /\ count s1 = count s2
  /\ Property s1 = Property s2
  /\ requests (io s1) = requests (io s2)
  /\ remote (io s1) = remote (io s2).

(** Two actions that keep two runs at the same point. *)
Definition in_step {A : Type} (m1 m2 : M state A) : Prop :=
  forall s1 s2, same_progress s1 s2 ->
    fst (m1 s1) = fst (m2 s2) /\ same_progress (snd (m1 s1)) (snd (m2 s2)).

(** A machine whose disk is full: every write fails. *)
Definition full_disk (df : frame) (names : list (list N)) : oracle :=
  Oracle (lit "/data/GPTComments") ∅
    (fun _ => Returned df) (fun _ => Returned names)
    (fun _ _ => Some (Exn OtherException (lit "[Errno 28] No space left on device")))
    (fun n => lit "2025-01-01_00-00-0" ++ repr_nat n).

Definition three_comments : frame :=
  Frame [lit "ASIN"; lit "Title"; lit "Body"]
    [ {[ lit "ASIN" := lit "B0001YH1A2"; lit "Title" := lit "t1"; lit "Body" := lit "b1" ]};
      {[ lit "ASIN" := lit "B000000000"; lit "Title" := lit "t2"; lit "Body" := lit "b2" ]};
      {[ lit "ASIN" := lit "B08S359FPG"; lit "Title" := lit "t3"; lit "Body" := lit "b3" ]} ].

(** The state the script starts in, with the variables of the environment
    given. *)
Definition start (env : gmap (list N) (list N)) : state :=
  State (world0 (Completion [Some (lit " 7,good ")])) env ∅ [] (Frame [] []) [] 0 None.

(** The remote model only ever fails with exceptions of class
    [Exception]. *)
Definition ordinary_remote (w : world) : Prop :=
  forall n req e, remote w n req = ApiFault e -> is_Exception e = true.

(** The request the batch sends for a row. *)
Definition row_request (propertyname : list N) (rowc : gmap (list N) (list N)) : request :=
  Request (lit "gpt-4o-mini")
    [(lit "user", prompt_text (rowc !! lit "Body") (rowc !! lit "Title") propertyname)]
    [].

(** The frame with one cell set. *)
Definition set_cell (indexc : nat) (propertyname text : list N) (df : frame) : frame :=
  Frame (columns df) (alter (insert propertyname text) indexc (data df)).

(** A row after the batch, against the row before: every value it had in
    a column of the frame is still there, and outside the columns of the
    rated properties it is the same. *)
Definition row_kept (cols names : list (list N))
    (row row' : gmap (list N) (list N)) : Prop :=
  (forall c v, c ∈ cols -> row !! c = Some v -> row' !! c = Some v)
  /\ (forall c, c ∉ names -> row' !! c = row !! c).

(** A row after the loop over one property, against the row before: the
    value it had for the property is still there, and the other columns
    are the same. *)
Definition cell_kept (propertyname : list N)
    (row row' : gmap (list N) (list N)) : Prop :=
  (forall v, row !! propertyname = Some v -> row' !! propertyname = Some v)
  /\ (forall c, c <> propertyname -> row' !! c = row !! c).

(** What a part of the batch may have cost: requests were only added, at
    most [n] of them, and the counter moved up by no more than their
    number. *)
Definition cost_at_most (n : nat) (s s' : state) : Prop :=
  exists sent,
    requests (io s') = requests (io s) ++ sent
    /\ (length sent <= n)%nat
    /\ count s <= count s' <= count s + N.of_nat (length sent).

(** The three comments with the two of the listed products rated. *)
Definition rated_comments : frame :=
  Frame [lit "ASIN"; lit "Title"; lit "Body"; lit "balance"]
    [ {[ lit "ASIN" := lit "B0001YH1A2"; lit "Title" := lit "t1"; lit "Body" := lit "b1";
         lit "balance" := lit "7,good" ]};
      {[ lit "ASIN" := lit "B000000000"; lit "Title" := lit "t2"; lit "Body" := lit "b2" ]};
      {[ lit "ASIN" := lit "B08S359FPG"; lit "Title" := lit "t3"; lit "Body" := lit "b3";
         lit "balance" := lit "NaN" ]} ].

(** The class [\w] on the ASCII characters, for running the extraction on
    plain replies. *)
Definition ascii_word (c : N) : bool :=
  ((48 <=? c) && (c <=? 57)) || ((65 <=? c) && (c <=? 90))
  || ((97 <=? c) && (c <=? 122)) || (c =? 95).

(** A separator of [re.split(r',|，', x)]. *)
Definition is_separator (c : N) : bool := (c =? chr ",") || (c =? 65292).

(** * Properties *)

(** ** Strings *)

Lemma lstrip_length (s : list N) : (length (lstrip s) <= length s)%nat.
Proof.
  induction s as [|c s IH]; simpl; [lia|].
  destruct (is_space c); simpl; lia.
Qed.

Lemma rstrip_length (s : list N) : (length (rstrip s) <= length s)%nat.
Proof.
  unfold rstrip. rewrite length_rev.
  etransitivity; [apply lstrip_length|]. by rewrite length_rev.
Qed.

Lemma lstrip_fixed (s : list N) :
  lstrip s = s <-> (forall c s', s = c :: s' -> is_space c = false).
Proof.
  split.
  - intros H c s' ->. simpl in H.
    destruct (is_space c) eqn:E; [|done].
    pose proof (lstrip_length s') as L.
    rewrite H in L. simpl in L. lia.
  - intros H. destruct s as [|c s']; [done|].
    simpl. by rewrite (H c s' eq_refl).
Qed.

Lemma rstrip_fixed (s : list N) :
  rstrip s = s <-> (forall c s', s = s' ++ [c] -> is_space c = false).
Proof.
  unfold rstrip. split.
  - intros H c s' ->.
    assert (lstrip (rev (s' ++ [c])) = rev (s' ++ [c])) as H'.
    { rewrite <- H at 2. by rewrite rev_involutive. }
    eapply (proj1 (lstrip_fixed _) H').
    rewrite rev_app_distr. reflexivity.
  - intros H.
    assert (lstrip (rev s) = rev s) as ->; [|apply rev_involutive].
    apply lstrip_fixed. intros c s' E.
    apply (H c (rev s')).
    rewrite <- (rev_involutive s), E. done.
Qed.

Lemma strip_fixed (s : list N) :
  strip s = s <-> lstrip s = s /\ rstrip s = s.
Proof.
  unfold strip. split.
  - intros H.
    assert (lstrip s = s) as L.
    { destruct s as [|c s']; [done|]. simpl in *.
      destruct (is_space c); [|done].
      pose proof (rstrip_length (lstrip s')) as L1.
      pose proof (lstrip_length s') as L2.
      rewrite H in L1. simpl in L1. lia. }
    split; [done|]. by rewrite L in H.
  - intros [H1 H2]. by rewrite H1, H2.
Qed.

Lemma is_space_cases (c : N) :
  is_space c = true ->
  (9 <= c <= 13) \/ (28 <= c <= 32) \/ c = 133 \/ c = 160 \/ c = 5760
  \/ (8192 <= c <= 8202) \/ c = 8232 \/ c = 8233 \/ c = 8239 \/ c = 8287
  \/ c = 12288.
Proof.
  unfold is_space.
  rewrite !orb_true_iff, !andb_true_iff, !N.leb_le, !N.eqb_eq. tauto.
Qed.

Lemma decimal_in_range (zs : list N) (c : N) (v : Z) :
  decimal_in zs c = Some v ->
  exists z, In z zs /\ z <= c <= z + 9 /\ v = Z.of_N (c - z).
Proof.
  induction zs as [|z zs IH]; simpl; [done|].
  destruct ((z <=? c) && (c <=? z + 9)) eqn:E.
  - intros [= <-]. exists z.
    apply andb_true_iff in E as [E1 E2].
    apply N.leb_le in E1. apply N.leb_le in E2. auto.
  - intros H. destruct (IH H) as (z' & ? & ?). exists z'. auto.
Qed.

Lemma decimal_value_range (c : N) (v : Z) :
  decimal_value c = Some v -> (0 <= v <= 9)%Z.
Proof.
  intros H. apply decimal_in_range in H as (z & _ & ? & ->). lia.
Qed.

Lemma decimal_not_space (c : N) (v : Z) :
  decimal_value c = Some v -> is_space c = false.
Proof.
  intros H. destruct (is_space c) eqn:E; [exfalso|done].
  apply is_space_cases in E.
  apply decimal_in_range in H as (z & Hz & Hc & _).
  unfold decimal_zeros in Hz. simpl in Hz.
  repeat (destruct Hz as [<-|Hz]; [lia|]). done.
Qed.

(** ** The matcher *)

Section ReFacts.
Context {A : Type}.

(** A greedy run that stops in front of a character outside the class
    hands the rest to the continuation. *)
Lemma star_run (p : N -> bool) (k : list N -> option A) (w s : list N) (r : A) :
  forallb p w = true ->
  (forall c s', s = c :: s' -> p c = false) ->
  k s = Some r ->
  Re.star p k (w ++ s) = Some r.
Proof.
  intros Hw Hs Hk. induction w as [|c w IH]; simpl.
  - destruct s as [|c s']; [done|].
    simpl. by rewrite (Hs c s' eq_refl).
  - simpl in Hw. apply andb_true_iff in Hw as [-> Hw].
    by rewrite (IH Hw).
Qed.

(** Whatever a run finds, it finds after some prefix inside the class. *)
Lemma star_inv (p : N -> bool) (k : list N -> option A) (s : list N) (r : A) :
  Re.star p k s = Some r ->
  exists w s', s = w ++ s' /\ forallb p w = true /\ k s' = Some r.
Proof.
  induction s as [|c s IH]; simpl.
  - intros H. by exists [], [].
  - destruct (p c) eqn:E.
    + destruct (Re.star p k s) as [r'|] eqn:E'.
      * intros [= ->].
        destruct (IH eq_refl) as (w & s' & -> & Hw & Hk).
        exists (c :: w), s'. simpl. by rewrite E, Hw.
      * intros H. by exists [], (c :: s).
    + intros H. by exists [], (c :: s).
Qed.

(** The lazy group stops at the first length at which the rest of the
    pattern matches. *)
Lemma plus_lazy_first (p : N -> bool) (k : list N -> list N -> option A)
    (t acc rest : list N) (r : A) :
  t <> [] ->
  forallb p t = true ->
  (forall t1 t2, t = t1 ++ t2 -> t1 <> [] -> t2 <> [] ->
                 k (acc ++ t1) (t2 ++ rest) = None) ->
  k (acc ++ t) rest = Some r ->
  Re.plus_lazy p k acc (t ++ rest) = Some r.
Proof.
  revert acc. induction t as [|c t IH]; intros acc Hne Hp Hshort Hfull; [done|].
  simpl in *. apply andb_true_iff in Hp as [-> Hp].
  destruct t as [|c' t'].
  - simpl. by rewrite Hfull.
  - rewrite (Hshort [c] (c' :: t')); [|done..].
    apply IH; [done|done| |].
    + intros t1 t2 E Ht1 Ht2. rewrite <- app_assoc.
      apply (Hshort (c :: t1) t2); [by rewrite E|done|done].
    + by rewrite <- app_assoc.
Qed.
End ReFacts.

Lemma bracket_not_space : is_space (chr "]") = false.
Proof. reflexivity. Qed.

Lemma comma_not_space : is_space (chr ",") = false.
Proof. reflexivity. Qed.

(** What is left of a reply inside the reason group: a tail that still has
    text in it cannot be closed by white space and a bracket. *)
Lemma closing_needs_end {A : Type} (res : A) (t2 w4 : list N) :
  t2 <> [] ->
  (forall c s', t2 = s' ++ [c] -> is_space c = false) ->
  Re.star is_space
    (Re.one (chr "]") (fun rest => if Re.dollar rest then Some res else None))
    (t2 ++ w4 ++ [chr "]"]) = None.
Proof.
  intros Hne Hlast.
  destruct (Re.star _ _ _) as [r|] eqn:E; [exfalso|done].
  apply star_inv in E as (w & s' & Hsplit & Hw & Hk).
  destruct s' as [|c s'']; [discriminate Hk|]. unfold Re.one in Hk.
  destruct (c =? chr "]") eqn:Ec; [|done]. apply N.eqb_eq in Ec as ->.
  destruct (exists_last Hne) as (t2' & c2 & ->).
  assert (s'' = [] /\ w = (t2' ++ [c2]) ++ w4) as [-> ->].
  { destruct s'' as [|x [|y s3]]; unfold Re.dollar in Hk; [| |done].
    - split; [done|].
      rewrite app_assoc in Hsplit.
      by apply app_inj_tail in Hsplit as [-> _].
    - destruct (x =? nl) eqn:Ex; [|done]. apply N.eqb_eq in Ex as ->.
      exfalso.
      change (w ++ [chr "]"; nl]) with (w ++ [chr "]"] ++ [nl]) in Hsplit.
      rewrite !app_assoc in Hsplit.
      by apply app_inj_tail in Hsplit as [_ ?]. }
  rewrite !forallb_app in Hw. simpl in Hw.
  rewrite (Hlast c2 t2' eq_refl) in Hw.
  by rewrite andb_false_r in Hw.
Qed.

(** ** comment_rating_per_v2.py: parsing the reply *)

Lemma score_pattern_bracketed (w1 : list N) (d : N) (v : Z) (w2 w3 text w4 : list N) :
  forallb is_space (w1 ++ w2 ++ w3 ++ w4) = true ->
  decimal_value d = Some v ->
  text <> [] ->
  strip text = text ->
  forallb Re.dot text = true ->
  score_pattern (bracketed w1 d w2 w3 text w4) = Some ([d], text).
Proof.
  rewrite !forallb_app, !andb_true_iff.
  intros (H1 & H2 & H3 & H4) Hd Hne Hstrip Hdot.
  apply strip_fixed in Hstrip as [Hl Hr].
  pose proof (proj1 (lstrip_fixed _) Hl) as Hhead.
  pose proof (proj1 (rstrip_fixed _) Hr) as Hlast.
  unfold score_pattern, bracketed, Re.one at 1.
  rewrite N.eqb_refl.
  apply star_run; [done| |].
  { intros c s' [= <- _]. by eapply decimal_not_space. }
  unfold Re.class, is_decimal. rewrite Hd.
  apply star_run; [done| |].
  { intros c s' [= <- _]. apply comma_not_space. }
  unfold Re.one at 1. rewrite N.eqb_refl.
  apply star_run; [done| |].
  { intros c s' E. destruct text as [|c0 text']; [done|].
    injection E as <- _. by eapply Hhead. }
  apply plus_lazy_first; [done|done| |].
  - intros t1 t2 -> Ht1 Ht2. simpl.
    apply closing_needs_end; [done|].
    intros c s' ->. apply (Hlast c (t1 ++ s')). by rewrite app_assoc.
  - simpl. apply star_run; [done| |].
    + intros c s' [= <- _]. apply bracket_not_space.
    + unfold Re.one. by rewrite N.eqb_refl.
Qed.

Lemma last_bracketed (w1 : list N) (d : N) (w2 w3 text w4 : list N) :
  last (bracketed w1 d w2 w3 text w4) = Some (chr "]").
Proof.
  unfold bracketed.
  rewrite last_cons, last_app, last_cons, last_app, last_cons, !last_app.
  reflexivity.
Qed.

(** A bracketed reply has nothing for [strip] to remove. *)
Lemma strip_bracketed (w1 : list N) (d : N) (w2 w3 text w4 : list N) :
  strip (bracketed w1 d w2 w3 text w4) = bracketed w1 d w2 w3 text w4.
Proof.
  apply strip_fixed. split.
  - reflexivity.
  - apply rstrip_fixed. intros c s' E.
    pose proof (last_bracketed w1 d w2 w3 text w4) as L.
    rewrite E, last_snoc in L. by injection L as ->.
Qed.

Section RateCommentV2.
Variables title body product_line_name propertyname propertytype gpt_key model : list N.

Let req : request :=
  the_request model
    (message_text title body product_line_name propertyname propertytype).

Let run : M world (option Z * list N * list N) :=
  rate_comment title body product_line_name propertyname propertytype gpt_key model.

(** The world after the request has been sent. *)
Let sent (w : world) : world := with_requests (requests w ++ [req]) w.

(** The function on a reply that has content: the three branches of the
    parser. *)
Lemma rate_comment_on_reply (w : world) (content : list N)
    (others : list (option (list N))) :
  remote w (length (requests w)) req = Completion (Some content :: others) ->
  run w =
    let raw := strip content in
    if str_eqb raw (lit "[NaN,NaN]") then (Returned (None, [], raw), sent w)
    else
      match score_pattern raw with
      | None =>
          let e := Exn ValueError (lit "Unexpected format: " ++ raw) in
          (Returned (None, [], lit "Error: " ++ exn_str e),
           with_stdout (stdout w ++ [lit "GPT error: " ++ exn_str e]) (sent w))
      | Some (g1, g2) =>
          try_except
            (score <- int_ g1 ;; ret (Some score, g2, raw))
            (fun e =>
               print (lit "GPT error: " ++ exn_str e) ;;
               ret (None, [], lit "Error: " ++ exn_str e))
            (sent w)
      end.
Proof.
  intros H. subst run sent req.
  cbv [rate_comment try_except bind chat_completions_create first_content_strip ret].
  rewrite H. cbv zeta.
  destruct (str_eqb (strip content) (lit "[NaN,NaN]")); [done|].
  destruct (score_pattern (strip content)) as [[g1 g2]|]; [done|].
  reflexivity.
Qed.

(** The function when the remote call, or reading its reply, raises. *)
Lemma rate_comment_on_fault (w : world) (e : exn) :
  is_Exception e = true ->
  (remote w (length (requests w)) req = ApiFault e
   \/ exists choices, remote w (length (requests w)) req = Completion choices
                      /\ first_content_strip choices (sent w) = (Raised e, sent w)) ->
  run w =
    (Returned (None, [], lit "Error: " ++ exn_str e),
     with_stdout (stdout w ++ [lit "GPT error: " ++ exn_str e]) (sent w)).
Proof.
  intros He H. subst run sent req.
  cbv [rate_comment try_except bind chat_completions_create ret].
  destruct H as [H | (choices & H & Hc)]; rewrite H.
  - by rewrite He.
  - rewrite Hc. by rewrite He.
Qed.
End RateCommentV2.

Lemma first_content_strip_any {S : Type} (choices : list (option (list N))) (s : S) :
  first_content_strip choices s = (fst (first_content_strip choices tt), s).
Proof. by destruct choices as [|[content|] ?]. Qed.

(** C1 (as amended).  For every reply of the shape [\[<digit>,<text>\]],
    with optional white space around the digit and around the text, where
    the text is not empty, holds no line feed and has no white space at
    either end, [rate_comment] returns the digit as an integer, the text
    unchanged and the reply itself. *)
Theorem rate_comment_bracketed_reply
    (title body product_line_name propertyname propertytype gpt_key model : list N)
    (w : world) (others : list (option (list N)))
    (w1 : list N) (d : N) (v : Z) (w2 w3 text w4 : list N) :
  let req := the_request model
               (message_text title body product_line_name propertyname propertytype) in
  let raw := bracketed w1 d w2 w3 text w4 in
  forallb is_space (w1 ++ w2 ++ w3 ++ w4) = true ->
  decimal_value d = Some v ->
  text <> [] ->
  strip text = text ->
  forallb Re.dot text = true ->
  remote w (length (requests w)) req = Completion (Some raw :: others) ->
  rate_comment title body product_line_name propertyname propertytype gpt_key model w
  = (Returned (Some v, text, raw), with_requests (requests w ++ [req]) w).
Proof.
  intros req raw Hw Hd Hne Hstrip Hdot Hreply.
  rewrite (rate_comment_on_reply _ _ _ _ _ _ _ _ _ _ Hreply). cbv zeta.
  subst raw. rewrite strip_bracketed.
  assert (str_eqb (bracketed w1 d w2 w3 text w4) (lit "[NaN,NaN]") = false) as ->.
  { unfold str_eqb. apply bool_decide_eq_false. intros E.
    assert (score_pattern (lit "[NaN,NaN]") = Some ([d], text)) as Hp.
    { rewrite <- E. by apply (score_pattern_bracketed _ _ v). }
    discriminate Hp. }
  rewrite (score_pattern_bracketed _ _ v) by done.
  unfold try_except, bind, int_, int_digits, ret. rewrite Hd.
  simpl. by destruct v.
Qed.

Lemma rate_comment_bracketed_reply_witness :
  rate_love_it (world0 (Completion [Some (lit "[4,Mentions balance positively]")]))
  = (Returned (Some 4%Z, lit "Mentions balance positively",
               lit "[4,Mentions balance positively]"),
     with_requests [love_it_request]
       (world0 (Completion [Some (lit "[4,Mentions balance positively]")]))).
Proof.
  apply (rate_comment_bracketed_reply
           (lit "Love it") (lit "Works great") (lit "Sympt-X") (lit "balance")
           (lit "brand personality") (lit "sk-...") (lit "o4-mini")
           (world0 (Completion [Some (lit "[4,Mentions balance positively]")]))
           [] [] (chr "4") 4%Z [] [] (lit "Mentions balance positively") []).
  - reflexivity.
  - reflexivity.
  - vm_compute. discriminate.
  - vm_compute. reflexivity.
  - vm_compute. reflexivity.
  - vm_compute. reflexivity.
Defined.

(** C1, the claim as written, fails: the reply [\[4, ok\]] has the text
    [" ok"] between its comma and its closing bracket, and the reason
    returned is ["ok"].  A text that is empty, or that holds a line feed,
    is not matched at all: the reply is reported as an error and no score
    is returned. *)
Lemma rate_comment_bracketed_reply_trims_text :
  let run reply := fst (rate_love_it (world0 (Completion [Some reply]))) in
  lit "[4, ok]" = [chr "["] ++ [chr "4"] ++ [chr ","] ++ lit " ok" ++ [chr "]"]
  /\ run (lit "[4, ok]") = Returned (Some 4%Z, lit "ok", lit "[4, ok]")
  /\ lit "ok" <> lit " ok"
  /\ run (lit "[4,]") = Returned (None, [], lit "Error: Unexpected format: [4,]")
  /\ run (lit "[4,a" ++ [nl] ++ lit "b]")
     = Returned (None, [], lit "Error: Unexpected format: [4,a" ++ [nl] ++ lit "b]").
Proof. vm_compute. repeat split. discriminate. Qed.

(** C2 (as amended).  For every reply whose trimmed text is the sentinel
    [\[NaN,NaN\]], [rate_comment] returns no score, the empty reason and,
    as third component, the trimmed reply: the sentinel itself. *)
Theorem rate_comment_sentinel
    (title body product_line_name propertyname propertytype gpt_key model : list N)
    (w : world) (content : list N) (others : list (option (list N))) :
  let req := the_request model
               (message_text title body product_line_name propertyname propertytype) in
  strip content = lit "[NaN,NaN]" ->
  remote w (length (requests w)) req = Completion (Some content :: others) ->
  rate_comment title body product_line_name propertyname propertytype gpt_key model w
  = (Returned (None, [], strip content), with_requests (requests w ++ [req]) w).
Proof.
  intros req Hs Hreply.
  rewrite (rate_comment_on_reply _ _ _ _ _ _ _ _ _ _ Hreply). cbv zeta.
  by rewrite Hs.
Qed.

Lemma rate_comment_sentinel_witness :
  rate_love_it (world0 (Completion [Some (lit " [NaN,NaN] ")]))
  = (Returned (None, [], lit "[NaN,NaN]"),
     with_requests [love_it_request]
       (world0 (Completion [Some (lit " [NaN,NaN] ")]))).
Proof.
  apply (rate_comment_sentinel
           (lit "Love it") (lit "Works great") (lit "Sympt-X") (lit "balance")
           (lit "brand personality") (lit "sk-...") (lit "o4-mini")
           (world0 (Completion [Some (lit " [NaN,NaN] ")]))
           (lit " [NaN,NaN] ") []).
  - vm_compute. reflexivity.
  - vm_compute. reflexivity.
Defined.

(** C2, the claim as written, fails: a reply that is the sentinel followed
    by a line feed trims to the sentinel, and the third component is the
    trimmed text, not the reply. *)
Lemma rate_comment_sentinel_drops_padding :
  let reply := lit "[NaN,NaN]" ++ [nl] in
  strip reply = lit "[NaN,NaN]"
  /\ fst (rate_love_it (world0 (Completion [Some reply])))
     = Returned (None, [], lit "[NaN,NaN]")
  /\ lit "[NaN,NaN]" <> reply.
Proof. vm_compute. repeat split. discriminate. Qed.

(** ** Faults of the remote call *)

(** C3.  Whatever exception the remote call raises, or the reading of a
    malformed reply (no choice, no content), both [rate_comment]s catch it
    and return normally: version 2 the triple [(None, "", "Error: <e>")]
    after printing the error, version 1 the string ["Error: <e>"]. *)
Theorem rate_comment_fails_closed
    (title body product_line_name propertyname propertytype gpt_key model : list N)
    (w : world) (e : exn) :
  let req := the_request model
               (message_text title body product_line_name propertyname propertytype) in
  let sent := with_requests (requests w ++ [req]) w in
  reply_of (remote w (length (requests w)) req) = Raised e ->
  is_Exception e = true ->
  rate_comment title body product_line_name propertyname propertytype gpt_key model w
  = (Returned (None, [], lit "Error: " ++ exn_str e),
     with_stdout (stdout w ++ [lit "GPT error: " ++ exn_str e]) sent)
  /\ CommentRatingPer.rate_comment title body product_line_name propertyname
       propertytype gpt_key model w
     = (Returned (lit "Error: " ++ exn_str e), sent).
Proof.
  intros req sent Hr He. split.
  - apply rate_comment_on_fault; [done|].
    destruct (remote w (length (requests w)) req) as [choices|e'] eqn:E.
    + right. exists choices. split; [done|].
      rewrite first_content_strip_any. simpl in Hr. by rewrite Hr.
    + left. simpl in Hr. by injection Hr as ->.
  - unfold CommentRatingPer.rate_comment, CommentRatingPer.message_text.
    cbv [try_except bind chat_completions_create ret].
    fold req. destruct (remote w (length (requests w)) req) as [choices|e'] eqn:E.
    + rewrite first_content_strip_any. simpl in Hr. rewrite Hr. by rewrite He.
    + simpl in Hr. injection Hr as ->. by rewrite He.
Qed.

Lemma rate_comment_fails_closed_witness :
  let fault := Exn OtherException (lit "Connection error.") in
  rate_love_it (world0 (ApiFault fault))
  = (Returned (None, [], lit "Error: Connection error."),
     with_stdout [lit "GPT error: Connection error."]
       (with_requests [love_it_request] (world0 (ApiFault fault))))
  /\ CommentRatingPer.rate_comment (lit "Love it") (lit "Works great") (lit "Sympt-X")
       (lit "balance") (lit "brand personality") (lit "sk-...") (lit "o4-mini")
       (world0 (ApiFault fault))
     = (Returned (lit "Error: Connection error."),
        with_requests [love_it_request] (world0 (ApiFault fault))).
Proof.
  apply (rate_comment_fails_closed
           (lit "Love it") (lit "Works great") (lit "Sympt-X") (lit "balance")
           (lit "brand personality") (lit "sk-...") (lit "o4-mini")
           (world0 (ApiFault (Exn OtherException (lit "Connection error."))))
           (Exn OtherException (lit "Connection error."))).
  - reflexivity.
  - reflexivity.
Defined.

(** A reply without choices and a choice without content are faults of the
    same kind. *)
Example malformed_replies_are_faults :
  reply_of (Completion []) = Raised (Exn IndexError (lit "list index out of range"))
  /\ reply_of (Completion [None])
     = Raised (Exn AttributeError (lit "'NoneType' object has no attribute 'strip'")).
Proof. split; reflexivity. Qed.

(** C4 (as amended).  In [rate_comment] of version 2 a reply that is
    neither the sentinel nor a bracketed single-digit reply raises the
    format error inside the [try]; the handler of the same function prints
    it and returns [(None, "", "Error: Unexpected format: <reply>")].
    Nothing reaches the caller. *)
Theorem rate_comment_format_violation_is_caught
    (title body product_line_name propertyname propertytype gpt_key model : list N)
    (w : world) (content : list N) (others : list (option (list N))) :
  let req := the_request model
               (message_text title body product_line_name propertyname propertytype) in
  let raw := strip content in
  raw <> lit "[NaN,NaN]" ->
  score_pattern raw = None ->
  remote w (length (requests w)) req = Completion (Some content :: others) ->
  rate_comment title body product_line_name propertyname propertytype gpt_key model w
  = (Returned (None, [], lit "Error: Unexpected format: " ++ raw),
     with_stdout (stdout w ++ [lit "GPT error: Unexpected format: " ++ raw])
       (with_requests (requests w ++ [req]) w)).
Proof.
  intros req raw Hs Hp Hreply.
  rewrite (rate_comment_on_reply _ _ _ _ _ _ _ _ _ _ Hreply). cbv zeta.
  fold raw. unfold str_eqb. rewrite bool_decide_eq_false_2 by done.
  rewrite Hp. reflexivity.
Qed.

Lemma rate_comment_format_violation_is_caught_witness :
  rate_love_it (world0 (Completion [Some (lit "not a valid reply")]))
  = (Returned (None, [], lit "Error: Unexpected format: not a valid reply"),
     with_stdout [lit "GPT error: Unexpected format: not a valid reply"]
       (with_requests [love_it_request]
          (world0 (Completion [Some (lit "not a valid reply")])))).
Proof.
  apply (rate_comment_format_violation_is_caught
           (lit "Love it") (lit "Works great") (lit "Sympt-X") (lit "balance")
           (lit "brand personality") (lit "sk-...") (lit "o4-mini")
           (world0 (Completion [Some (lit "not a valid reply")]))
           (lit "not a valid reply") []).
  - vm_compute. discriminate.
  - vm_compute. reflexivity.
  - reflexivity.
Defined.

(** C4, the claim as written, fails: on the reply [not a valid reply],
    which matches neither shape, the function returns; no exception
    leaves it. *)
Lemma rate_comment_format_violation_not_raised :
  let raw := lit "not a valid reply" in
  strip raw <> lit "[NaN,NaN]"
  /\ score_pattern (strip raw) = None
  /\ fst (rate_love_it (world0 (Completion [Some raw])))
     = Returned (None, [], lit "Error: Unexpected format: not a valid reply")
  /\ ~ (exists e, fst (rate_love_it (world0 (Completion [Some raw]))) = Raised e).
Proof.
  vm_compute. repeat split; [discriminate|].
  intros [e H]. discriminate H.
Qed.

(** ** comment_rating_per_v2.py: the DuckDB sink *)

Lemma stored_rows_lookup (w : world) (db_path table_name : list N) (db : database) :
  files w !! db_path = Some db ->
  stored_rows w db_path table_name = rows_in db table_name.
Proof. intros H. unfold stored_rows, rows_in. by rewrite H. Qed.

(** [init_db], run: the database DuckDB is given is the one of the file,
    or an empty one when the file is new or was removed; the file then
    holds what DuckDB left, and what DuckDB raised is raised. *)
Lemma init_db_run (db_path table_name : list N) (overwrite : bool) (w : world) :
  let old : database :=
    match files w !! db_path with
    | Some db => if overwrite then ∅ else db
    | None => ∅
    end in
  let made := duckdb w (create_table_sql table_name) (views w) old in
  init_db db_path table_name overwrite w
  = (handed_on (fst made) (Connection db_path),
     with_files (<[db_path := snd made]> (files w))
       (with_sql_log (sql_log w ++ [create_table_sql table_name]) w)).
Proof.
  intros old made. subst made old.
  unfold init_db, bind, path_exists, gets, os_remove, modify, duckdb_connect,
    execute, ret.
  destruct (files w !! db_path) as [db|] eqn:Hdb.
  - rewrite bool_decide_eq_true_2 by done.
    destruct overwrite; cbn [andb].
    + cbn [files with_files]. rewrite lookup_delete_eq.
      cbn [files with_files con_path views sql_log duckdb].
      rewrite lookup_insert_eq.
      cbn [files with_files con_path views sql_log duckdb].
      rewrite insert_insert_eq, insert_delete_eq.
      destruct (fst (duckdb w (create_table_sql table_name) (views w) ∅));
        reflexivity.
    + rewrite Hdb. cbn [con_path]. rewrite Hdb.
      destruct (fst (duckdb w (create_table_sql table_name) (views w) db));
        reflexivity.
  - rewrite bool_decide_eq_false_2 by (intros [? ?]; done).
    rewrite andb_false_r. rewrite Hdb.
    cbn [files with_files con_path views sql_log duckdb].
    rewrite lookup_insert_eq.
    cbn [files with_files con_path views sql_log duckdb].
    rewrite insert_insert_eq.
    destruct (fst (duckdb w (create_table_sql table_name) (views w) ∅));
      reflexivity.
Qed.

(** C5.  [init_db] with [overwrite=True] on an existing store removes the
    file and opens a new, empty database in its place; the one thing
    DuckDB is then given is the [CREATE TABLE] text, on that empty
    database.  So nothing of the old store is left, whether DuckDB runs
    the text or refuses it and [init_db] raises; and as long as that text
    stores no row in an empty database, the store holds no row under any
    table name. *)
Theorem init_db_overwrite_starts_empty
    (w : world) (db_path table_name : list N) (db : database) :
  files w !! db_path = Some db ->
  let r := init_db db_path table_name true w in
  let made := duckdb w (create_table_sql table_name) (views w) ∅ in
  fst r = handed_on (fst made) (Connection db_path)
  /\ files (snd r) = <[db_path := snd made]> (files w)
  /\ ((forall t, rows_in (snd made) t = []) ->
      forall t, stored_rows (snd r) db_path t = []).
Proof.
  intros Hdb r made. subst r made.
  rewrite init_db_run. rewrite Hdb. cbn [fst snd files with_files].
  split; [reflexivity|]. split; [reflexivity|].
  intros Hmade t.
  erewrite stored_rows_lookup; [apply Hmade|].
  cbn [files with_files]. apply lookup_insert_eq.
Qed.

(** C6.  [init_db] without [overwrite] removes nothing: all it does to an
    existing store is to hand the [CREATE TABLE IF NOT EXISTS] text to
    DuckDB, on the database as it is, and no other file is touched.  When
    DuckDB leaves the database alone, as it does when it refuses the text
    and [init_db] raises, every file is as before; and whenever the text
    leaves the rows of the tables alone, the rows stored under every table
    name are the same before and after. *)
Theorem init_db_reopen_keeps_rows
    (w : world) (db_path table_name : list N) (db : database) :
  files w !! db_path = Some db ->
  let r := init_db db_path table_name false w in
  let made := duckdb w (create_table_sql table_name) (views w) db in
  fst r = handed_on (fst made) (Connection db_path)
  /\ files (snd r) = <[db_path := snd made]> (files w)
  /\ (forall p, p <> db_path -> files (snd r) !! p = files w !! p)
  /\ (snd made = db -> files (snd r) = files w)
  /\ ((forall t, rows_in (snd made) t = rows_in db t) ->
      forall t, stored_rows (snd r) db_path t = stored_rows w db_path t).
Proof.
  intros Hdb r made. subst r made.
  rewrite init_db_run. rewrite Hdb. cbn [fst snd files with_files].
  split; [reflexivity|]. split; [reflexivity|]. split; [|split].
  - intros p Hp. by rewrite lookup_insert_ne.
  - intros ->. by apply insert_id.
  - intros Hmade t.
    rewrite (stored_rows_lookup w _ _ db) by done.
    erewrite stored_rows_lookup; [apply Hmade|].
    cbn [files with_files]. apply lookup_insert_eq.
Qed.

(** C9.  [write_rows] with no rows returns at once and leaves the world as
    it was: no statement is executed, nothing is registered, and every
    table of every store holds the rows it held. *)
Theorem write_rows_empty_batch (w : world) (con : connection) (table_name : list N) :
  let r := write_rows con [] table_name w in
  r = (Returned tt, w)
  /\ sql_log (snd r) = sql_log w
  /\ views (snd r) = views w
  /\ forall db_path t, stored_rows (snd r) db_path t = stored_rows w db_path t.
Proof.
  intros r. assert (r = (Returned tt, w)) as -> by reflexivity.
  by repeat split.
Qed.

Lemma init_db_overwrite_starts_empty_witness :
  let r := init_db DB_PATH TABLE_NAME true one_row_store in
  stored_rows one_row_store DB_PATH TABLE_NAME = [one_row]
  /\ fst r = Raised refusal
  /\ files (snd r) = <[DB_PATH := ∅]> (files one_row_store)
  /\ forall t, stored_rows (snd r) DB_PATH t = [].
Proof.
  intros r. split; [vm_compute; reflexivity|].
  assert (files one_row_store !! DB_PATH = Some {[ TABLE_NAME := Table [one_row] 2 ]})
    as Hdb by (vm_compute; reflexivity).
  destruct (init_db_overwrite_starts_empty one_row_store DB_PATH TABLE_NAME _ Hdb)
    as (Hr & Hf & Hrows).
  split; [exact Hr|]. split; [exact Hf|].
  apply Hrows. intros t. reflexivity.
Defined.

Lemma init_db_reopen_keeps_rows_witness :
  let r := init_db DB_PATH TABLE_NAME false one_row_store in
  fst r = Raised refusal
  /\ files (snd r) = files one_row_store
  /\ (forall p, p <> DB_PATH -> files (snd r) !! p = files one_row_store !! p)
  /\ forall t, stored_rows (snd r) DB_PATH t = stored_rows one_row_store DB_PATH t.
Proof.
  intros r.
  assert (files one_row_store !! DB_PATH = Some {[ TABLE_NAME := Table [one_row] 2 ]})
    as Hdb by (vm_compute; reflexivity).
  destruct (init_db_reopen_keeps_rows one_row_store DB_PATH TABLE_NAME _ Hdb)
    as (Hr & _ & Hp & Hf & Hrows).
  split; [exact Hr|]. split; [apply Hf; reflexivity|]. split; [exact Hp|].
  apply Hrows. intros t. reflexivity.
Defined.

(** The store does hold its row before.  On a DuckDB that refuses the
    texts, [init_db] raises with and without [overwrite]: with it the store
    is left empty, without it the row is still there; and a batch that is
    not empty is registered as [tmp] and stays so. *)
Example stored_rows_one_row_store :
  stored_rows one_row_store DB_PATH TABLE_NAME = [one_row].
Proof. vm_compute. reflexivity. Qed.

Example init_db_on_one_row_store :
  let run overwrite := init_db DB_PATH TABLE_NAME overwrite one_row_store in
  fst (run true) = Raised refusal
  /\ files (snd (run true)) !! DB_PATH = Some ∅
  /\ stored_rows (snd (run true)) DB_PATH TABLE_NAME = []
  /\ fst (run false) = Raised refusal
  /\ stored_rows (snd (run false)) DB_PATH TABLE_NAME = [one_row].
Proof. vm_compute. repeat split. Qed.

Example write_rows_one_row :
  let d := RowDict (lit "Too salty") (lit "I can't") (lit "balance") None []
             (lit "[NaN,NaN]") in
  let r := write_rows (Connection DB_PATH) [d] TABLE_NAME one_row_store in
  fst r = Raised refusal
  /\ stored_rows (snd r) DB_PATH TABLE_NAME = [one_row]
  /\ sql_log (snd r) = [insert_sql TABLE_NAME]
  /\ views (snd r) !! lit "tmp" = Some [d].
Proof. vm_compute. repeat split. Qed.

(** ** gender_prediction.py *)

Lemma contains_cons (needle hay : list N) (c : N) :
  contains needle hay = true -> contains needle (c :: hay) = true.
Proof. intros H. simpl. rewrite H. apply orb_true_r. Qed.

Lemma startswith_cons (a b : N) (p s : list N) :
  startswith (b :: s) (a :: p) = (a =? b) && startswith s p.
Proof. reflexivity. Qed.

(** Every string that holds [female] holds [male]. *)
Lemma contains_female_male (s : list N) :
  contains (lit "female") s = true -> contains (lit "male") s = true.
Proof.
  induction s as [|c s IH]; [done|].
  change (contains (lit "female") (c :: s))
    with (startswith (c :: s) (lit "female") || contains (lit "female") s).
  intros H. apply orb_true_iff in H as [H|H]; [|by apply contains_cons, IH].
  destruct s as [|c2 [|c3 [|c4 [|c5 [|c6 rest]]]]];
    try (vm_compute in H; repeat case_match; done).
  change (lit "female") with [102; 101; 109; 97; 108; 101] in H.
  rewrite !startswith_cons, !andb_true_iff, !N.eqb_eq in H.
  destruct H as (<- & <- & <- & <- & <- & <- & _).
  reflexivity.
Qed.

(** C10.  With [result] the lowercased trimmed reply: [predict_gender]
    returns ["female"] whenever [result] holds [female] (which then also
    holds [male]); it returns ["male"] when [result] holds [male] and not
    [female], and only then; otherwise it returns [result]. *)
Theorem predict_gender_female_first
    (lower : list N -> list N) (name : list N) (w : world)
    (content : list N) (others : list (option (list N))) :
  let req := GenderPrediction.the_request name in
  let sent := with_requests (requests w ++ [req]) w in
  let result := lower (strip content) in
  let run := GenderPrediction.predict_gender lower name w in
  remote w (length (requests w)) req = Completion (Some content :: others) ->
  (contains (lit "female") result = true ->
     run = (Returned (lit "female"), sent) /\ contains (lit "male") result = true)
  /\ (contains (lit "female") result = false -> contains (lit "male") result = true ->
        run = (Returned (lit "male"), sent))
  /\ (fst run = Returned (lit "male") ->
        contains (lit "male") result = true /\ contains (lit "female") result = false)
  /\ (contains (lit "female") result = false -> contains (lit "male") result = false ->
        run = (Returned result, sent)).
Proof.
  intros req sent result run Hreply.
  assert (run = (Returned (if contains (lit "female") result then lit "female"
                           else if contains (lit "male") result then lit "male"
                           else result), sent)) as Hrun.
  { subst run.
    cbv [GenderPrediction.predict_gender try_except bind chat_completions_create
         first_content_strip ret].
    fold req. rewrite Hreply. fold result.
    destruct (contains (lit "female") result); [done|].
    by destruct (contains (lit "male") result). }
  rewrite Hrun. clear Hrun.
  split; [|split; [|split]].
  - intros Hf. rewrite Hf. split; [done|]. by apply contains_female_male.
  - intros Hf Hm. by rewrite Hf, Hm.
  - destruct (contains (lit "female") result) eqn:Hf.
    + intros H. vm_compute in H. discriminate H.
    + destruct (contains (lit "male") result) eqn:Hm; [done|].
      simpl. intros [= H]. rewrite H in Hm. vm_compute in Hm. discriminate Hm.
  - intros Hf Hm. by rewrite Hf, Hm.
Qed.

Lemma predict_gender_female_first_witness :
  let w := world0 (Completion [Some (lit " Female. ")]) in
  GenderPrediction.predict_gender ascii_lower (lit "Alice") w
  = (Returned (lit "female"),
     with_requests [GenderPrediction.the_request (lit "Alice")] w)
  /\ contains (lit "male") (ascii_lower (strip (lit " Female. "))) = true.
Proof.
  apply (predict_gender_female_first ascii_lower (lit "Alice")
           (world0 (Completion [Some (lit " Female. ")])) (lit " Female. ") []).
  - reflexivity.
  - vm_compute. reflexivity.
Defined.

(** The handler covers the call only: a reply without choices raises out
    of [predict_gender]. *)
Example predict_gender_malformed_reply :
  fst (GenderPrediction.predict_gender ascii_lower (lit "Alice")
         (world0 (Completion [])))
  = Raised (Exn IndexError (lit "list index out of range"))
  /\ fst (GenderPrediction.predict_gender ascii_lower (lit "Alice")
            (world0 (ApiFault (Exn OtherException (lit "Connection error.")))))
     = Returned (lit "Error: Connection error.").
Proof. vm_compute. split; reflexivity. Qed.

(** The three branches on plain replies. *)
Example predict_gender_runs :
  let run (reply : string) :=
    fst (GenderPrediction.predict_gender ascii_lower (lit "Alice")
           (world0 (Completion [Some (lit reply)]))) in
  run "Female"%string = Returned (lit "female")
  /\ run " male"%string = Returned (lit "male")
  /\ run "Unknown"%string = Returned (lit "unknown").
Proof. vm_compute. repeat split. Qed.


(** ** comment_rating.py: checkpoints, the final save and the API key *)

Lemma same_progress_refl (s : state) : same_progress s s.
Proof. by repeat split. Qed.

Section InStep.
Context {A B : Type}.

Lemma in_step_ret (a : A) : in_step (ret a) (ret a).
Proof. intros s1 s2 H. by split. Qed.

Lemma in_step_raise (e : exn) : in_step (raise (A := A) e) (raise e).
Proof. intros s1 s2 H. by split. Qed.

Lemma in_step_bind (m1 m2 : M state A) (f1 f2 : A -> M state B) :
  in_step m1 m2 -> (forall a, in_step (f1 a) (f2 a)) ->
  in_step (bind m1 f1) (bind m2 f2).
Proof.
  intros Hm Hf s1 s2 H. unfold bind.
  destruct (Hm s1 s2 H) as [Hr Hs].
  destruct (m1 s1) as [r1 s1'], (m2 s2) as [r2 s2']. simpl in *. subst r2.
  destruct r1 as [a|e]; [by apply Hf|by split].
Qed.

Lemma in_step_try_except (m1 m2 : M state A) (h1 h2 : exn -> M state A) :
  in_step m1 m2 -> (forall e, in_step (h1 e) (h2 e)) ->
  in_step (try_except m1 h1) (try_except m2 h2).
Proof.
  intros Hm Hh s1 s2 H. unfold try_except.
  destruct (Hm s1 s2 H) as [Hr Hs].
  destruct (m1 s1) as [r1 s1'], (m2 s2) as [r2 s2']. simpl in *. subst r2.
  destruct r1 as [a|e]; [by split|].
  destruct (is_Exception e); [by apply Hh|by split].
Qed.

(** Reading something that the point of the batch determines. *)
Lemma in_step_gets (f : state -> A) :
  (forall s1 s2, same_progress s1 s2 -> f s1 = f s2) ->
  in_step (gets f) (gets f).
Proof. intros Hf s1 s2 H. unfold gets. simpl. split; [by rewrite (Hf s1 s2 H)|done]. Qed.
End InStep.

Lemma in_step_modify (f : state -> state) :
  (forall s1 s2, same_progress s1 s2 -> same_progress (f s1) (f s2)) ->
  in_step (modify f) (modify f).
Proof. intros Hf s1 s2 H. unfold modify. simpl. split; [done|by apply Hf]. Qed.

Lemma in_step_print (l1 l2 : list N) : in_step (lift (print l1)) (lift (print l2)).
Proof.
  intros s1 s2 (? & ? & ? & ? & ?). unfold lift, print, modify. simpl.
  by repeat split.
Qed.

Lemma in_step_create (req : request) :
  in_step (lift (chat_completions_create req)) (lift (chat_completions_create req)).
Proof.
  intros s1 s2 (HP & Hc & Hl & Hr & Hm). unfold lift, chat_completions_create.
  rewrite Hr, Hm.
  destruct (remote (io s2) (length (requests (io s2))) req); simpl;
    by repeat split.
Qed.

Lemma in_step_getitem (cols : list (list N)) (row : gmap (list N) (list N))
    (label : list N) :
  in_step (getitem cols row label) (getitem cols row label).
Proof.
  unfold getitem. case_bool_decide; [apply in_step_ret|apply in_step_raise].
Qed.

Lemma in_step_first_content_strip (choices : list (option (list N))) :
  in_step (first_content_strip choices) (first_content_strip choices).
Proof.
  destruct choices as [|[content|] ?]; simpl;
    [apply in_step_raise|apply in_step_ret|apply in_step_raise].
Qed.

(** The checkpoint function, run: whatever the disk does, it returns, and
    says on [stdout] which way the write went. *)
Lemma save_to_feather_with_timestamp_run (o : oracle) (df : frame)
    (folder_path : list N) (s : state) :
  ordinary_disk o ->
  let path := path_join folder_path (clock o (length (writes s)) ++ lit ".feather") in
  save_to_feather_with_timestamp o df folder_path s =
    match disk o (length (writes s)) path with
    | Some e =>
        (Returned tt,
         with_io (with_stdout (stdout (io s) ++ [lit "Error saving file: " ++ exn_str e])
                    (io s))
           (with_writes (writes s ++ [(path, None)]) s))
    | None =>
        (Returned tt,
         with_io (with_stdout (stdout (io s) ++ [lit "Data successfully saved to " ++ path])
                    (io s))
           (with_writes (writes s ++ [(path, Some df)]) s))
    end.
Proof.
  intros Hdisk path.
  unfold save_to_feather_with_timestamp, bind, gets, try_except, to_feather,
    write_file.
  fold path.
  destruct (disk o (length (writes s)) path) as [e|] eqn:E; [|done].
  by rewrite (Hdisk _ _ _ E).
Qed.

Lemma in_step_save (o1 o2 : oracle) (df : frame) (f1 f2 : list N) :
  ordinary_disk o1 -> ordinary_disk o2 ->
  in_step (save_to_feather_with_timestamp o1 df f1)
          (save_to_feather_with_timestamp o2 df f2).
Proof.
  intros H1 H2 s1 s2 (? & ? & ? & ? & ?).
  rewrite !save_to_feather_with_timestamp_run by done. cbv zeta.
  destruct (disk o1 _ _), (disk o2 _ _); simpl; by repeat split.
Qed.

Lemma in_step_rate_row (o1 o2 : oracle) (propertyname : list N)
    (cols : list (list N)) (indexc : nat) (rowc : gmap (list N) (list N)) :
  ordinary_disk o1 -> ordinary_disk o2 ->
  in_step (rate_row o1 propertyname cols indexc rowc)
          (rate_row o2 propertyname cols indexc rowc).
Proof.
  intros H1 H2. unfold rate_row.
  apply in_step_bind; [apply in_step_getitem|intros asin].
  case_bool_decide; [|apply in_step_ret].
  apply in_step_bind; [apply in_step_getitem|intros current].
  destruct current; [apply in_step_ret|].
  apply in_step_try_except; [|intros e; apply in_step_print].
  apply in_step_bind; [apply in_step_getitem|intros body].
  apply in_step_bind; [apply in_step_getitem|intros title].
  apply in_step_bind; [apply in_step_create|intros completion].
  apply in_step_bind; [apply in_step_first_content_strip|intros response_text].
  apply in_step_bind; [|intros _].
  { apply in_step_modify. intros s1 s2 (HP & ? & ? & ? & ?).
    repeat split; simpl; try done. by rewrite HP. }
  apply in_step_bind; [|intros _].
  { apply in_step_modify. intros s1 s2 (? & Hc & ? & ? & ?).
    repeat split; simpl; try done. by rewrite Hc. }
  apply in_step_bind; [|intros n].
  { apply in_step_gets. by intros s1 s2 (? & ? & _). }
  destruct (n mod 20 =? 1); [|apply in_step_ret].
  apply in_step_bind; [|intros df].
  { apply in_step_gets. by intros s1 s2 (? & _). }
  apply in_step_bind; [by apply in_step_save|intros _].
  apply in_step_print.
Qed.

Lemma in_step_rate_rows (o1 o2 : oracle) (propertyname : list N)
    (cols : list (list N)) (rows : list (nat * gmap (list N) (list N))) :
  ordinary_disk o1 -> ordinary_disk o2 ->
  in_step (rate_rows o1 propertyname cols rows) (rate_rows o2 propertyname cols rows).
Proof.
  intros H1 H2. induction rows as [|[indexc rowc] rest IH]; simpl.
  - apply in_step_ret.
  - apply in_step_bind; [by apply in_step_rate_row|intros _].
    apply in_step_bind; [|intros n].
    { apply in_step_gets. by intros s1 s2 (? & ? & _). }
    destruct (max_count <=? n); [apply in_step_ret|apply IH].
Qed.

Lemma in_step_rate_property (o1 o2 : oracle) (propertyname : list N) :
  ordinary_disk o1 -> ordinary_disk o2 ->
  in_step (rate_property o1 propertyname) (rate_property o2 propertyname).
Proof.
  intros H1 H2. unfold rate_property.
  apply in_step_bind; [apply in_step_print|intros _].
  apply in_step_bind; [|intros df].
  { apply in_step_gets. by intros s1 s2 (? & _). }
  apply in_step_bind; [|intros _].
  { case_bool_decide; [apply in_step_ret|].
    apply in_step_modify. intros s1 s2 (? & ? & ? & ? & ?). by repeat split. }
  apply in_step_bind; [|intros _].
  { apply in_step_modify. intros s1 s2 (? & ? & ? & ? & ?). by repeat split. }
  apply in_step_bind; [|intros df'].
  { apply in_step_gets. by intros s1 s2 (? & _). }
  apply in_step_bind; [by apply in_step_rate_rows|intros _].
  apply in_step_bind; [|intros n].
  { apply in_step_gets. by intros s1 s2 (? & ? & _). }
  apply in_step_print.
Qed.

Lemma in_step_rate_properties (o1 o2 : oracle) (names : list (list N)) :
  ordinary_disk o1 -> ordinary_disk o2 ->
  in_step (rate_properties o1 names) (rate_properties o2 names).
Proof.
  intros H1 H2. induction names as [|propertyname rest IH]; simpl.
  - apply in_step_ret.
  - apply in_step_bind; [by apply in_step_rate_property|intros _; apply IH].
Qed.

Lemma calm_ordinary (o : oracle) : ordinary_disk (calm o).
Proof. intros n path e H. discriminate H. Qed.

(** C7.  On a disk whose faults are ordinary exceptions, the checkpoint
    function always returns, printing the error when the write failed, and
    leaves the batch where it was; so the whole batch ends with the same
    outcome, frame, counter and requests as on a disk that never fails.
    The final save is not protected: a fault of its feather write, or of
    the Excel write after it, is raised to the caller. *)
Theorem checkpoint_faults_are_contained (o : oracle) :
  ordinary_disk o ->
  (forall df folder_path s,
     exists s',
       save_to_feather_with_timestamp o df folder_path s = (Returned tt, s')
       /\ same_progress s s'
       /\ forall e,
            disk o (length (writes s))
              (path_join folder_path (clock o (length (writes s)) ++ lit ".feather"))
            = Some e ->
            stdout (io s') = stdout (io s) ++ [lit "Error saving file: " ++ exn_str e])
  /\ (forall names s,
        fst (rate_properties o names s) = fst (rate_properties (calm o) names s)
        /\ same_progress (snd (rate_properties o names s))
                         (snd (rate_properties (calm o) names s)))
  /\ (forall s e,
        disk o (length (writes s)) (rating_path_feather o) = Some e ->
        final_save o s
        = (Raised e, with_writes (writes s ++ [(rating_path_feather o, None)]) s))
  /\ (forall s e,
        disk o (length (writes s)) (rating_path_feather o) = None ->
        disk o (S (length (writes s))) (rating_path_xlsx o) = Some e ->
        fst (final_save o s) = Raised e).
Proof.
  intros Hdisk. split; [|split; [|split]].
  - intros df folder_path s.
    exists (snd (save_to_feather_with_timestamp o df folder_path s)).
    rewrite save_to_feather_with_timestamp_run by done. cbv zeta.
    destruct (disk o _ _) as [e0|]; simpl.
    + split; [done|]. split; [by repeat split|]. by intros e [= ->].
    + split; [done|]. split; [by repeat split|]. by intros e.
  - intros names s.
    apply in_step_rate_properties; [done|apply calm_ordinary|apply same_progress_refl].
  - intros s e He. unfold final_save, bind, gets, to_feather, write_file.
    by rewrite He.
  - intros s e H1 H2. unfold final_save, bind, gets, to_feather, to_excel, write_file.
    rewrite H1. simpl. rewrite length_app. simpl.
    replace (length (writes s) + 1)%nat with (S (length (writes s))) by lia.
    by rewrite H2.
Qed.

Lemma checkpoint_faults_are_contained_witness :
  let o := full_disk three_comments [lit "balance"] in
  let s := with_Property_Rating three_comments (start ∅) in
  (exists s',
     save_to_feather_with_timestamp o three_comments (temp_folder_path o) s
     = (Returned tt, s')
     /\ same_progress s s')
  /\ fst (rate_properties o [lit "balance"] s)
     = fst (rate_properties (calm o) [lit "balance"] s)
  /\ final_save o s
     = (Raised (Exn OtherException (lit "[Errno 28] No space left on device")),
        with_writes [(rating_path_feather o, None)] s).
Proof.
  intros o s.
  destruct (checkpoint_faults_are_contained o) as (H1 & H2 & H3 & _).
  - intros n path e H. injection H as <-. reflexivity.
  - split; [|split].
    + destruct (H1 three_comments (temp_folder_path o) s) as (s' & ? & ? & _).
      exists s'. by split.
    + apply (H2 [lit "balance"] s).
    + apply (H3 s). reflexivity.
Defined.

(** The batch on the full disk: the checkpoint fails and is reported, both
    comments of the listed products are still rated, and the final save
    raises. *)
Example script_on_full_disk :
  let o := full_disk three_comments [lit "balance"] in
  let r := script o (start {[ lit "OPENAI_API_KEY" := lit "sk-test" ]}) in
  fst r = Raised (Exn OtherException (lit "[Errno 28] No space left on device"))
  /\ count (snd r) = 2
  /\ map (fun row => row !! lit "balance") (data (Property_Rating (snd r)))
     = [Some (lit "7,good"); None; Some (lit "7,good")]
  /\ In (lit "Error saving file: [Errno 28] No space left on device")
        (stdout (io (snd r)))
  /\ length (requests (io (snd r))) = 2%nat.
Proof. vm_compute. repeat split. tauto. Qed.

(** C8.  When [OPENAI_API_KEY] is neither in the environment nor in the
    [.env] file, the script ends with an exception and sends no request at
    all; when its two input files can be read, the exception is the
    [ValueError] of the credential check. *)
Theorem no_request_without_api_key (o : oracle) (s : state) :
  (environ s ∪ dotenv o) !! lit "OPENAI_API_KEY" = None ->
  (exists e, fst (script o s) = Raised e)
  /\ requests (io (snd (script o s))) = requests (io s)
  /\ (forall df names,
        feather_in o (rating_path_feather o) = Returned df ->
        excel_in o (property_path_xlsx o) = Returned names ->
        fst (script o s)
        = Raised (Exn ValueError
                    (lit "API key not found. Please set the OPENAI_API_KEY environment variable."))).
Proof.
  intros Hkey. unfold script.
  cbv [load_dotenv make_temp_folder read_inputs configure getenv bind modify gets
       lift print ret raise].
  simpl.
  case_bool_decide; simpl;
    destruct (feather_in o (rating_path_feather o)) as [df|e1]; simpl;
    try (split; [by eexists|by split]);
    destruct (excel_in o (property_path_xlsx o)) as [names|e2]; simpl;
    try (split; [by eexists|by split]);
    rewrite Hkey; simpl; (split; [by eexists|by split]).
Qed.

Lemma no_request_without_api_key_witness :
  let o := full_disk three_comments [lit "balance"] in
  fst (script o (start ∅))
  = Raised (Exn ValueError
              (lit "API key not found. Please set the OPENAI_API_KEY environment variable."))
  /\ requests (io (snd (script o (start ∅)))) = [].
Proof.
  intros o.
  destruct (no_request_without_api_key o (start ∅)) as (_ & Hreq & Hraise).
  - vm_compute. reflexivity.
  - split; [|exact Hreq].
    apply (Hraise three_comments [lit "balance"]); reflexivity.
Defined.

(** With the key set, the same script does send its requests. *)
Example script_with_api_key_sends :
  let o := calm (full_disk three_comments [lit "balance"]) in
  let r := script o (start {[ lit "OPENAI_API_KEY" := lit "sk-test" ]}) in
  fst r = Returned tt
  /\ length (requests (io (snd r))) = 2%nat
  /\ openai_api_key (snd r) = Some (lit "sk-test").
Proof. vm_compute. repeat split. Qed.

(** * Further properties of the scripts *)

(** ** Trimming *)

Lemma lstrip_split (s : list N) :
  exists w, s = w ++ lstrip s /\ forallb is_space w = true.
Proof.
  induction s as [|c s (w & Hs & Hw)]; [by exists []|].
  simpl. destruct (is_space c) eqn:E.
  - exists (c :: w). simpl. rewrite E, Hw. split; [by f_equal|done].
  - by exists [].
Qed.

Lemma forallb_reverse (p : N -> bool) (w : list N) :
  forallb p (rev w) = forallb p w.
Proof.
  induction w as [|c w IH]; [done|].
  simpl. rewrite forallb_app, IH. simpl. rewrite andb_true_r. apply andb_comm.
Qed.

Lemma rstrip_split (s : list N) :
  exists w, s = rstrip s ++ w /\ forallb is_space w = true.
Proof.
  unfold rstrip. destruct (lstrip_split (rev s)) as (w & Hs & Hw).
  exists (rev w). split.
  - rewrite <- rev_app_distr, <- Hs. by rewrite rev_involutive.
  - by rewrite forallb_reverse.
Qed.

Lemma lstrip_lstrip (s : list N) : lstrip (lstrip s) = lstrip s.
Proof.
  induction s as [|c s IH]; [done|].
  simpl. destruct (is_space c) eqn:E; [done|]. simpl. by rewrite E.
Qed.

(** What [strip] returns has nothing left to trim. *)
Lemma strip_strip (s : list N) : strip (strip s) = strip s.
Proof.
  apply strip_fixed. split.
  - apply lstrip_fixed. intros c s' E. unfold strip in E.
    destruct (rstrip_split (lstrip s)) as (w & Hs & _).
    rewrite E in Hs. simpl in Hs.
    eapply (proj1 (lstrip_fixed (lstrip s))); [apply lstrip_lstrip|exact Hs].
  - unfold strip, rstrip. rewrite rev_involutive. by rewrite lstrip_lstrip.
Qed.

Import CommentRatingPerV2Main.

(** ** The pattern, read backwards *)

Lemma plus_lazy_inv {A : Type} (p : N -> bool) (k : list N -> list N -> option A)
    (s acc : list N) (r : A) :
  Re.plus_lazy p k acc s = Some r ->
  exists t rest, t <> [] /\ s = t ++ rest /\ forallb p t = true
                 /\ k (acc ++ t) rest = Some r.
Proof.
  revert acc. induction s as [|c s IH]; intros acc; simpl; [done|].
  destruct (p c) eqn:E; [|done].
  destruct (k (acc ++ [c]) s) as [r'|] eqn:Ek.
  - intros [= ->]. exists [c], s. simpl. by rewrite E.
  - intros H. destruct (IH _ H) as (t & rest & Hne & -> & Hp & Hk).
    exists (c :: t), rest. simpl. rewrite E, Hp.
    rewrite <- app_assoc in Hk. done.
Qed.

(** What [score_pattern] matches, read off the pattern item by item. *)
Lemma score_pattern_inv (raw g1 g2 : list N) :
  score_pattern raw = Some (g1, g2) ->
  exists w1 d v w2 w3 w4 tail,
    raw = bracketed w1 d w2 w3 g2 w4 ++ tail
    /\ (tail = [] \/ tail = [nl])
    /\ g1 = [d]
    /\ decimal_value d = Some v
    /\ forallb is_space (w1 ++ w2 ++ w3 ++ w4) = true
    /\ g2 <> []
    /\ forallb Re.dot g2 = true.
Proof.
  unfold score_pattern. intros H.
  destruct raw as [|c0 raw]; [done|]. unfold Re.one at 1 in H.
  destruct (c0 =? chr "[") eqn:E0; [|done]. apply N.eqb_eq in E0 as ->.
  apply star_inv in H as (w1 & s1 & -> & Hw1 & H).
  destruct s1 as [|d s1]; [discriminate H|]. unfold Re.class in H.
  destruct (is_decimal d) eqn:Ed; [|done].
  unfold is_decimal in Ed. destruct (decimal_value d) as [v|] eqn:Hv; [|done].
  apply star_inv in H as (w2 & s2 & -> & Hw2 & H).
  destruct s2 as [|c2 s2]; [discriminate H|]. unfold Re.one at 1 in H.
  destruct (c2 =? chr ",") eqn:E2; [|done]. apply N.eqb_eq in E2 as ->.
  apply star_inv in H as (w3 & s3 & -> & Hw3 & H).
  apply plus_lazy_inv in H as (t & s4 & Hne & -> & Hdot & H).
  change ([] ++ t) with t in H. cbv beta in H.
  apply star_inv in H as (w4 & s5 & -> & Hw4 & H).
  destruct s5 as [|c5 tail]; [discriminate H|]. unfold Re.one in H.
  destruct (c5 =? chr "]") eqn:E5; [|done]. apply N.eqb_eq in E5 as ->.
  destruct (Re.dollar tail) eqn:Et; [|done]. injection H as <- <-.
  exists w1, d, v, w2, w3, w4, tail. repeat split; try done.
  - unfold bracketed. simpl. f_equal.
    repeat (rewrite <- ?app_assoc; simpl; f_equal).
  - destruct tail as [|x [|y tail]]; [by left| |done].
    simpl in Et. apply N.eqb_eq in Et as ->. by right.
  - rewrite !forallb_app. by rewrite Hw1, Hw2, Hw3, Hw4.
Qed.


(** X1.  Whatever [score_pattern] matches in a trimmed reply is a bracketed
    reply and nothing else: a bracket, one decimal digit, a comma, the
    reason and a closing bracket, with white space allowed around the digit
    and the reason.  The first group is the digit, the second the reason,
    which is not empty and holds no line feed. *)
Theorem score_pattern_sound (content g1 g2 : list N) :
  score_pattern (strip content) = Some (g1, g2) ->
  exists w1 d v w2 w3 w4,
    strip content = bracketed w1 d w2 w3 g2 w4
    /\ g1 = [d]
    /\ decimal_value d = Some v
    /\ forallb is_space (w1 ++ w2 ++ w3 ++ w4) = true
    /\ g2 <> []
    /\ forallb Re.dot g2 = true.
Proof.
  intros H.
  destruct (score_pattern_inv _ _ _ H)
    as (w1 & d & v & w2 & w3 & w4 & tail & Hraw & Htail & Hg1 & Hd & Hw & Hne & Hdot).
  exists w1, d, v, w2, w3, w4. repeat split; try done.
  destruct Htail as [->| ->]; [by rewrite app_nil_r in Hraw|].
  exfalso.
  pose proof (proj2 (proj1 (strip_fixed _) (strip_strip content))) as Hr.
  pose proof (proj1 (rstrip_fixed _) Hr nl (bracketed w1 d w2 w3 g2 w4) Hraw) as Hnl.
  discriminate Hnl.
Qed.

Lemma score_pattern_sound_witness :
  exists w1 d v w2 w3 w4,
    strip (lit " [ 4 , ok ] ") = bracketed w1 d w2 w3 (lit "ok") w4
    /\ [chr "4"] = [d]
    /\ decimal_value d = Some v
    /\ forallb is_space (w1 ++ w2 ++ w3 ++ w4) = true
    /\ lit "ok" <> []
    /\ forallb Re.dot (lit "ok") = true.
Proof.
  apply (score_pattern_sound (lit " [ 4 , ok ] ") [chr "4"] (lit "ok")).
  vm_compute. reflexivity.
Defined.

(** ** comment_rating_per_v2.py: every way [rate_comment] can end *)

(** The function either lets a non-[Exception] fault of the call through,
    or returns, having printed nothing or one line. *)
Lemma rate_comment_ends
    (title body product_line_name propertyname propertytype gpt_key model : list N)
    (w : world) :
  let req := the_request model
               (message_text title body product_line_name propertyname propertytype) in
  let sent := with_requests (requests w ++ [req]) w in
  let run := rate_comment title body product_line_name propertyname propertytype
               gpt_key model w in
  (exists e, remote w (length (requests w)) req = ApiFault e
             /\ is_Exception e = false /\ run = (Raised e, sent))
  \/ (exists r, run = (Returned r, sent))
  \/ (exists r line, run = (Returned r, with_stdout (stdout w ++ [line]) sent)).
Proof.
  intros req sent run. subst run.
  cbv [rate_comment try_except bind chat_completions_create print modify ret raise
       first_content_strip].
  fold req. fold sent.
  destruct (remote w (length (requests w)) req) as [choices|e] eqn:E.
  - right. destruct choices as [|[content|] others];
      cbv beta iota delta [is_Exception exn_class_of].
    + right. eexists _, _. reflexivity.
    + destruct (str_eqb (strip content) (lit "[NaN,NaN]"));
        [left; eexists; reflexivity|].
      destruct (score_pattern (strip content)) as [[g1 g2]|];
        cbv beta iota delta [is_Exception exn_class_of].
      * unfold int_. destruct g1 as [|c g1];
          cbv beta iota delta [is_Exception exn_class_of raise];
          [right; eexists _, _; reflexivity|].
        destruct (int_digits 0 (c :: g1));
          cbv beta iota delta [is_Exception exn_class_of raise ret];
          [left; eexists; reflexivity|right; eexists _, _; reflexivity].
      * right. eexists _, _. reflexivity.
    + right. eexists _, _. reflexivity.
  - destruct (is_Exception e) eqn:He.
    + right. right. eexists _, _. reflexivity.
    + left. by exists e.
Qed.

(** X2.  When the remote call fails only with ordinary exceptions,
    [rate_comment] always returns.  It has then sent exactly one request
    (there is no retry), printed at most one line, and touched neither the
    files nor the connection. *)
Theorem rate_comment_returns_after_one_request
    (title body product_line_name propertyname propertytype gpt_key model : list N)
    (w : world) :
  let req := the_request model
               (message_text title body product_line_name propertyname propertytype) in
  (forall e, remote w (length (requests w)) req = ApiFault e -> is_Exception e = true) ->
  exists r w',
    rate_comment title body product_line_name propertyname propertytype gpt_key model w
    = (Returned r, w')
    /\ requests w' = requests w ++ [req]
    /\ remote w' = remote w
    /\ files w' = files w /\ views w' = views w /\ sql_log w' = sql_log w
    /\ (stdout w' = stdout w \/ exists line, stdout w' = stdout w ++ [line]).
Proof.
  intros req Hord.
  destruct (rate_comment_ends title body product_line_name propertyname propertytype
              gpt_key model w)
    as [(e & He & Hne & _)|[(r & ->)|(r & line & ->)]].
  - rewrite (Hord e He) in Hne. discriminate Hne.
  - eexists _, _. split; [done|]. simpl. repeat split; try done. by left.
  - eexists _, _. split; [done|]. simpl. repeat split; try done. right. by eexists.
Qed.

Lemma rate_comment_returns_after_one_request_witness :
  exists r w',
    rate_love_it (world0 (Completion [])) = (Returned r, w')
    /\ requests w' = [love_it_request]
    /\ remote w' = remote (world0 (Completion []))
    /\ files w' = ∅ /\ views w' = ∅ /\ sql_log w' = []
    /\ (stdout w' = [] \/ exists line, stdout w' = [] ++ [line]).
Proof.
  apply (rate_comment_returns_after_one_request
           (lit "Love it") (lit "Works great") (lit "Sympt-X") (lit "balance")
           (lit "brand personality") (lit "sk-...") (lit "o4-mini")
           (world0 (Completion []))).
  intros e H. vm_compute in H. discriminate H.
Defined.

Opaque lit.

(** X3.  Whatever [rate_comment] returns has one of two forms.  With a
    score: the score is a single digit, 0 to 9, the reason is not empty and
    holds no line feed, the third component is a trimmed reply that the
    pattern matches with that reason, and nothing was printed.  Without a
    score: the reason is empty. *)
Theorem rate_comment_score_is_a_digit
    (title body product_line_name propertyname propertytype gpt_key model : list N)
    (w w' : world) (score : option Z) (reason raw : list N) :
  rate_comment title body product_line_name propertyname propertytype gpt_key model w
  = (Returned (score, reason, raw), w') ->
  match score with
  | Some v =>
      (0 <= v <= 9)%Z
      /\ reason <> []
      /\ forallb Re.dot reason = true
      /\ strip raw = raw
      /\ (exists d, decimal_value d = Some v /\ score_pattern raw = Some ([d], reason))
      /\ stdout w' = stdout w
  | None => reason = []
  end.
Proof.
  cbv [rate_comment try_except bind chat_completions_create print modify ret raise
       first_content_strip].
  destruct (remote w _ _) as [choices|e].
  - destruct choices as [|[content|] others];
      cbv beta iota delta [is_Exception exn_class_of].
    + (intros H; injection H as <- <- <- <-; reflexivity).
    + destruct (str_eqb (strip content) (lit "[NaN,NaN]")); [(intros H; injection H as <- <- <- <-; reflexivity)|].
      destruct (score_pattern (strip content)) as [[g1 g2]|] eqn:Hp;
        cbv beta iota delta [is_Exception exn_class_of];
        [|(intros H; injection H as <- <- <- <-; reflexivity)].
      destruct (score_pattern_inv _ _ _ Hp)
        as (w1 & d & v & w2 & w3 & w4 & tail & _ & _ & -> & Hd & _ & Hne & Hdot).
      unfold int_, int_digits. rewrite Hd. cbv beta iota delta [ret].
      assert ((10 * 0 + v)%Z = v) as -> by lia.
      intros H; injection H as <- <- <- <-.
      repeat split; try done.
      * by apply (decimal_value_range d).
      * by apply (decimal_value_range d).
      * apply strip_strip.
      * by exists d.
    + (intros H; injection H as <- <- <- <-; reflexivity).
  - destruct (is_Exception e); [(intros H; injection H as <- <- <- <-; reflexivity)|done].
Qed.

Transparent lit.

Lemma rate_comment_score_is_a_digit_witness :
  (0 <= 4 <= 9)%Z
  /\ lit "ok" <> []
  /\ forallb Re.dot (lit "ok") = true
  /\ strip (lit "[4, ok]") = lit "[4, ok]"
  /\ (exists d, decimal_value d = Some 4%Z
                /\ score_pattern (lit "[4, ok]") = Some ([d], lit "ok"))
  /\ stdout (with_requests [love_it_request]
               (world0 (Completion [Some (lit "[4, ok]")])))
     = stdout (world0 (Completion [Some (lit "[4, ok]")])).
Proof.
  apply (rate_comment_score_is_a_digit
           (lit "Love it") (lit "Works great") (lit "Sympt-X") (lit "balance")
           (lit "brand personality") (lit "sk-...") (lit "o4-mini")
           (world0 (Completion [Some (lit "[4, ok]")]))
           (with_requests [love_it_request]
              (world0 (Completion [Some (lit "[4, ok]")])))
           (Some 4%Z) (lit "ok") (lit "[4, ok]")).
  vm_compute. reflexivity.
Defined.

(** ** comment_rating_per.py, both copies *)

Lemma reply_of_trimmed (out : api_outcome) (r : list N) :
  reply_of out = Returned r -> strip r = r.
Proof.
  destruct out as [[|[content|] others]|e]; simpl; try done.
  intros [= <-]. apply strip_strip.
Qed.

(** X4.  When the remote call fails only with ordinary exceptions, the
    older [rate_comment] (both copies) always returns a string after
    exactly one request: the reply with the white space at its ends
    removed, or ["Error: "] followed by the text of the exception.  It
    changes nothing else in the world. *)
Theorem rate_comment_v1_returns_a_string
    (title body product_line_name property_name property_type gpt_key model : list N)
    (w : world) :
  let req := the_request model
               (CommentRatingPer.message_text title body product_line_name
                  property_name property_type) in
  let req' := the_request model
                (CommentRatingPerArchive.message_text title body property_name
                   property_type) in
  let answer out :=
    match reply_of out with
    | Returned r => r
    | Raised e => lit "Error: " ++ exn_str e
    end in
  (forall n q e, remote w n q = ApiFault e -> is_Exception e = true) ->
  CommentRatingPer.rate_comment title body product_line_name property_name
    property_type gpt_key model w
  = (Returned (answer (remote w (length (requests w)) req)),
     with_requests (requests w ++ [req]) w)
  /\ CommentRatingPerArchive.rate_comment title body property_name property_type
       gpt_key model w
     = (Returned (answer (remote w (length (requests w)) req')),
        with_requests (requests w ++ [req']) w)
  /\ (forall r, reply_of (remote w (length (requests w)) req) = Returned r ->
                strip r = r).
Proof.
  intros req req' answer Hord. split; [|split].
  - subst answer.
    cbv [CommentRatingPer.rate_comment try_except bind chat_completions_create
         first_content_strip ret raise].
    fold req. destruct (remote w (length (requests w)) req) as [choices|e] eqn:E.
    + by destruct choices as [|[content|] others].
    + simpl. by rewrite (Hord _ _ _ E).
  - subst answer.
    cbv [CommentRatingPerArchive.rate_comment try_except bind chat_completions_create
         first_content_strip ret raise].
    fold req'. destruct (remote w (length (requests w)) req') as [choices|e] eqn:E.
    + by destruct choices as [|[content|] others].
    + simpl. by rewrite (Hord _ _ _ E).
  - intros r. apply reply_of_trimmed.
Qed.

Lemma rate_comment_v1_returns_a_string_witness :
  let w := world0 (Completion [Some (lit "  [4, ok]  ")]) in
  CommentRatingPer.rate_comment (lit "Love it") (lit "Works great") (lit "Sympt-X")
    (lit "balance") (lit "brand personality") (lit "sk-...") (lit "o4-mini") w
  = (Returned (lit "[4, ok]"), with_requests [love_it_request] w).
Proof.
  intros w.
  refine (proj1 (rate_comment_v1_returns_a_string
                   (lit "Love it") (lit "Works great") (lit "Sympt-X") (lit "balance")
                   (lit "brand personality") (lit "sk-...") (lit "o4-mini") w _)).
  intros n q e H. vm_compute in H. discriminate H.
Defined.

Opaque lit.

(** X5.  Version 2 extends version 1: whenever [rate_comment] of version 2
    returns a score, or the sentinel as third component, that third
    component is what [rate_comment] of version 1 returns in the same
    world. *)
Theorem rate_comment_v2_raw_is_v1
    (title body product_line_name propertyname propertytype gpt_key model : list N)
    (w w' : world) (score : option Z) (reason raw : list N) :
  rate_comment title body product_line_name propertyname propertytype gpt_key model w
  = (Returned (score, reason, raw), w') ->
  is_Some score \/ raw = lit "[NaN,NaN]" ->
  CommentRatingPer.rate_comment title body product_line_name propertyname
    propertytype gpt_key model w
  = (Returned raw, w').
Proof.
  cbv [rate_comment CommentRatingPer.rate_comment CommentRatingPer.message_text
       try_except bind chat_completions_create print modify ret raise
       first_content_strip].
  destruct (remote w _ _) as [choices|e].
  - destruct choices as [|[content|] others];
      cbv beta iota delta [is_Exception exn_class_of].
    + intros H [[v Hv]|Hr]; injection H as <- <- <- <-; [done|].
      vm_compute in Hr. discriminate Hr.
    + destruct (str_eqb (strip content) (lit "[NaN,NaN]")).
      { intros H _. by injection H as <- <- <- <-. }
      destruct (score_pattern (strip content)) as [[g1 g2]|].
      * unfold int_. destruct g1 as [|c g1];
          cbv beta iota delta [is_Exception exn_class_of raise].
        { intros H [[v Hv]|Hr]; injection H as <- <- <- <-; [done|].
          vm_compute in Hr. discriminate Hr. }
        destruct (int_digits 0 (c :: g1));
          cbv beta iota delta [is_Exception exn_class_of raise ret].
        { intros H _. by injection H as <- <- <- <-. }
        intros H [[v Hv]|Hr]; injection H as <- <- <- <-; [done|].
        vm_compute in Hr. discriminate Hr.
      * intros H [[v Hv]|Hr]; injection H as <- <- <- <-; [done|].
        vm_compute in Hr. discriminate Hr.
    + intros H [[v Hv]|Hr]; injection H as <- <- <- <-; [done|].
      vm_compute in Hr. discriminate Hr.
  - destruct (is_Exception e); [|done].
    intros H [[v Hv]|Hr]; injection H as <- <- <- <-; [done|].
    vm_compute in Hr. discriminate Hr.
Qed.

Transparent lit.

Lemma rate_comment_v2_raw_is_v1_witness :
  let w := world0 (Completion [Some (lit "[4, ok]")]) in
  CommentRatingPer.rate_comment (lit "Love it") (lit "Works great") (lit "Sympt-X")
    (lit "balance") (lit "brand personality") (lit "sk-...") (lit "o4-mini") w
  = (Returned (lit "[4, ok]"), with_requests [love_it_request] w).
Proof.
  intros w.
  apply (rate_comment_v2_raw_is_v1
           (lit "Love it") (lit "Works great") (lit "Sympt-X") (lit "balance")
           (lit "brand personality") (lit "sk-...") (lit "o4-mini")
           w (with_requests [love_it_request] w) (Some 4%Z) (lit "ok") (lit "[4, ok]")).
  - vm_compute. reflexivity.
  - left. by exists 4%Z.
Defined.

(** ** gender_prediction.py: what the handler does not cover *)

(** X6.  In [predict_gender] only the remote call is inside the [try]: an
    ordinary exception of the call is returned as ["Error: ..."], but the
    exception raised by reading a reply without choices or without content
    leaves the function. *)
Theorem predict_gender_on_fault
    (lower : list N -> list N) (name : list N) (w : world) (e : exn) :
  let req := GenderPrediction.the_request name in
  reply_of (remote w (length (requests w)) req) = Raised e ->
  GenderPrediction.predict_gender lower name w
  = (match remote w (length (requests w)) req with
     | ApiFault _ =>
         if is_Exception e then Returned (lit "Error: " ++ exn_str e) else Raised e
     | Completion _ => Raised e
     end,
     with_requests (requests w ++ [req]) w).
Proof.
  intros req.
  cbv [GenderPrediction.predict_gender try_except bind chat_completions_create
       first_content_strip ret raise].
  fold req. destruct (remote w (length (requests w)) req) as [choices|e'].
  - destruct choices as [|[content|] others]; simpl; try done;
      by intros [= <-].
  - simpl. intros [= ->]. by destruct (is_Exception e).
Qed.

Lemma predict_gender_on_fault_witness :
  let w := world0 (Completion [None]) in
  GenderPrediction.predict_gender ascii_lower (lit "Alice") w
  = (Raised (Exn AttributeError (lit "'NoneType' object has no attribute 'strip'")),
     with_requests [GenderPrediction.the_request (lit "Alice")] w).
Proof.
  intros w.
  apply (predict_gender_on_fault ascii_lower (lit "Alice") w
           (Exn AttributeError (lit "'NoneType' object has no attribute 'strip'"))).
  reflexivity.
Defined.

(** ** comment_rating_per_v2.py: more on the sink *)

(** X7.  On a path where there is no store the [overwrite] flag makes no
    difference, it is only looked at when the file exists: [init_db]
    creates the file and hands the [CREATE TABLE] text to DuckDB on an
    empty database; it returns the connection when DuckDB takes the text
    and raises what DuckDB raises when it does not. *)
Theorem init_db_creates_missing_store
    (w : world) (db_path table_name : list N) (overwrite : bool) :
  files w !! db_path = None ->
  let r := init_db db_path table_name overwrite w in
  let made := duckdb w (create_table_sql table_name) (views w) ∅ in
  r = init_db db_path table_name (negb overwrite) w
  /\ fst r = handed_on (fst made) (Connection db_path)
  /\ files (snd r) = <[db_path := snd made]> (files w)
  /\ sql_log (snd r) = sql_log w ++ [create_table_sql table_name].
Proof.
  intros Hdb r made. subst r made.
  rewrite !init_db_run. rewrite Hdb. cbn [fst snd files sql_log with_files with_sql_log].
  repeat split.
Qed.

Lemma init_db_creates_missing_store_witness :
  let w := world0 (Completion []) in
  let r := init_db DB_PATH TABLE_NAME true w in
  r = init_db DB_PATH TABLE_NAME false w
  /\ fst r = Raised refusal
  /\ files (snd r) = <[DB_PATH := ∅]> (files w)
  /\ sql_log (snd r) = sql_log w ++ [create_table_sql TABLE_NAME].
Proof.
  intros w r.
  assert (files w !! DB_PATH = None) as Hdb by (vm_compute; reflexivity).
  exact (init_db_creates_missing_store w DB_PATH TABLE_NAME true Hdb).
Defined.

(** X8.  [init_db] touches no file but the one at [db_path], with or
    without [overwrite]; afterwards that file exists, one text has been
    passed to DuckDB, nothing was requested, printed or registered, and
    [init_db] has returned the connection on [db_path] or raised. *)
Theorem init_db_only_its_own_file
    (w : world) (db_path table_name : list N) (overwrite : bool) :
  let r := init_db db_path table_name overwrite w in
  (forall p, p <> db_path -> files (snd r) !! p = files w !! p)
  /\ is_Some (files (snd r) !! db_path)
  /\ sql_log (snd r) = sql_log w ++ [create_table_sql table_name]
  /\ requests (snd r) = requests w
  /\ stdout (snd r) = stdout w
  /\ views (snd r) = views w
  /\ (fst r = Returned (Connection db_path) \/ exists e, fst r = Raised e).
Proof.
  intros r. subst r. rewrite init_db_run. cbv zeta.
  cbn [fst snd files sql_log requests stdout views with_files with_sql_log].
  split; [intros p Hp; by rewrite lookup_insert_ne|].
  split; [rewrite lookup_insert_eq; by eexists|].
  repeat (split; [reflexivity|]).
  match goal with |- context [handed_on ?o _] => destruct o as [u|e] end.
  - by left.
  - right. by exists e.
Qed.

(** X9.  On a DuckDB that refuses the [CREATE TABLE] text and changes
    nothing, [init_db] raises on every store.  The file is there
    afterwards; with [overwrite] it holds no row, the old file having been
    removed before the text was tried, and without it the rows are the
    ones that were there. *)
Theorem init_db_refused
    (w : world) (db_path table_name : list N) (overwrite : bool) (e : exn) :
  (forall d, duckdb w (create_table_sql table_name) (views w) d = (Raised e, d)) ->
  let r := init_db db_path table_name overwrite w in
  fst r = Raised e
  /\ is_Some (files (snd r) !! db_path)
  /\ (forall t, stored_rows (snd r) db_path t
                = if overwrite then [] else stored_rows w db_path t)
  /\ (forall p, p <> db_path -> files (snd r) !! p = files w !! p).
Proof.
  intros Hno r. subst r. rewrite init_db_run. cbv zeta. rewrite Hno.
  cbn [fst snd files with_files handed_on].
  split; [reflexivity|].
  split; [rewrite lookup_insert_eq; by eexists|].
  split; [|intros p Hp; by rewrite lookup_insert_ne].
  intros t. erewrite stored_rows_lookup; [|cbn [files with_files]; apply lookup_insert_eq].
  unfold stored_rows, rows_in.
  destruct (files w !! db_path) as [db|]; destruct overwrite; try reflexivity;
    by rewrite lookup_empty.
Qed.

Lemma init_db_refused_witness :
  let r := init_db DB_PATH TABLE_NAME false one_row_store in
  fst r = Raised refusal
  /\ is_Some (files (snd r) !! DB_PATH)
  /\ (forall t, stored_rows (snd r) DB_PATH t = stored_rows one_row_store DB_PATH t)
  /\ (forall p, p <> DB_PATH -> files (snd r) !! p = files one_row_store !! p).
Proof.
  intros r.
  apply (init_db_refused one_row_store DB_PATH TABLE_NAME false refusal).
  intros d. reflexivity.
Defined.

(** ** [write_rows] on a batch that is not empty *)

(** [write_rows], run on a batch that is not empty. *)
Lemma write_rows_run (con : connection) (d : row_dict) (ds : list row_dict)
    (table_name : list N) (w : world) (db : database) :
  files w !! con_path con = Some db ->
  let made := duckdb w (insert_sql table_name) (<[lit "tmp" := d :: ds]> (views w)) db in
  write_rows con (d :: ds) table_name w
  = (fst made,
     with_views
       (match fst made with
        | Returned _ => delete (lit "tmp") (views w)
        | Raised _ => <[lit "tmp" := d :: ds]> (views w)
        end)
       (with_files (<[con_path con := snd made]> (files w))
          (with_sql_log (sql_log w ++ [insert_sql table_name]) w))).
Proof.
  intros Hdb made. subst made.
  unfold write_rows, bind, register, unregister, modify, execute.
  cbn [files views sql_log duckdb with_views with_files with_sql_log].
  rewrite Hdb.
  destruct (fst (duckdb w (insert_sql table_name)
                   (<[lit "tmp" := d :: ds]> (views w)) db)) as [[]|e].
  - unfold with_views, with_files, with_sql_log.
    cbn [remote requests stdout files views sql_log duckdb].
    by rewrite delete_insert_eq.
  - reflexivity.
Qed.

(** X10.  A batch that is not empty is registered as [tmp] and the
    [INSERT] text is handed to DuckDB once, with that frame in sight; the
    file then holds what DuckDB left.  [write_rows] ends as DuckDB does:
    when the text is taken it returns with [tmp] unregistered, when it is
    refused the exception is raised and [tmp] stays registered, the
    [unregister] not being reached.  Nothing is requested or printed. *)
Theorem write_rows_hands_the_batch_to_duckdb
    (w : world) (con : connection) (rows : list row_dict) (table_name : list N)
    (db : database) :
  rows <> [] ->
  files w !! con_path con = Some db ->
  let r := write_rows con rows table_name w in
  let made := duckdb w (insert_sql table_name) (<[lit "tmp" := rows]> (views w)) db in
  fst r = fst made
  /\ files (snd r) = <[con_path con := snd made]> (files w)
  /\ sql_log (snd r) = sql_log w ++ [insert_sql table_name]
  /\ views (snd r)
     = match fst made with
       | Returned _ => delete (lit "tmp") (views w)
       | Raised _ => <[lit "tmp" := rows]> (views w)
       end
  /\ requests (snd r) = requests w
  /\ stdout (snd r) = stdout w.
Proof.
  intros Hne Hdb r made. subst r made.
  destruct rows as [|d ds]; [done|].
  rewrite (write_rows_run con d ds table_name w db Hdb).
  repeat split.
Qed.

Lemma write_rows_hands_the_batch_to_duckdb_witness :
  let d := RowDict (lit "Too salty") (lit "I can't") (lit "balance") None []
             (lit "[NaN,NaN]") in
  let w := World (fun _ _ => Completion []) [] []
             {[ DB_PATH := {[ TABLE_NAME := Table [one_row] 2 ]} ]} ∅ [] accepting in
  let r := write_rows (Connection DB_PATH) [d] TABLE_NAME w in
  fst r = Returned tt
  /\ files (snd r) = <[DB_PATH := {[ TABLE_NAME := Table [one_row] 2 ]}]> (files w)
  /\ sql_log (snd r) = sql_log w ++ [insert_sql TABLE_NAME]
  /\ views (snd r) = delete (lit "tmp") (views w)
  /\ requests (snd r) = requests w
  /\ stdout (snd r) = stdout w.
Proof.
  intros d w r.
  assert (files w !! DB_PATH = Some {[ TABLE_NAME := Table [one_row] 2 ]}) as Hdb
    by (vm_compute; reflexivity).
  refine (write_rows_hands_the_batch_to_duckdb w (Connection DB_PATH) [d] TABLE_NAME
            _ _ Hdb).
  discriminate.
Defined.

(** X11.  When DuckDB refuses the [INSERT] text and changes nothing,
    [write_rows] raises what DuckDB raised: no file has changed and the
    batch is still registered as [tmp]. *)
Theorem write_rows_refused
    (w : world) (con : connection) (rows : list row_dict) (table_name : list N)
    (db : database) (e : exn) :
  rows <> [] ->
  files w !! con_path con = Some db ->
  duckdb w (insert_sql table_name) (<[lit "tmp" := rows]> (views w)) db = (Raised e, db) ->
  exists w',
    write_rows con rows table_name w = (Raised e, w')
    /\ views w' !! lit "tmp" = Some rows
    /\ files w' = files w
    /\ sql_log w' = sql_log w ++ [insert_sql table_name].
Proof.
  intros Hne Hdb Hno.
  destruct rows as [|d ds]; [done|].
  rewrite (write_rows_run con d ds table_name w db Hdb). cbv zeta. rewrite Hno.
  cbn [fst snd]. eexists. split; [reflexivity|].
  cbn [views files sql_log with_views with_files with_sql_log].
  split; [apply lookup_insert_eq|]. split; [by apply insert_id|reflexivity].
Qed.

Lemma write_rows_refused_witness :
  let d := RowDict (lit "Too salty") (lit "I can't") (lit "balance") None []
             (lit "[NaN,NaN]") in
  exists w',
    write_rows (Connection DB_PATH) [d] TABLE_NAME one_row_store = (Raised refusal, w')
    /\ views w' !! lit "tmp" = Some [d]
    /\ files w' = files one_row_store
    /\ sql_log w' = sql_log one_row_store ++ [insert_sql TABLE_NAME].
Proof.
  intros d.
  assert (files one_row_store !! DB_PATH = Some {[ TABLE_NAME := Table [one_row] 2 ]})
    as Hdb by (vm_compute; reflexivity).
  refine (write_rows_refused one_row_store (Connection DB_PATH) [d] TABLE_NAME
            _ refusal _ Hdb _).
  - discriminate.
  - reflexivity.
Defined.

(** ** comment_rating_per_v2.py: [main] *)

Lemma rate_all_run (cs : list comment) (rows : list row_dict) (w : world) :
  ordinary_remote w ->
  exists new w',
    rate_all cs rows w = (Returned (rows ++ new), w')
    /\ map d_title new = map c_title cs
    /\ map d_body new = map c_body cs
    /\ Forall (fun d => d_property d = PROP_NAME) new
    /\ length (requests w') = (length (requests w) + length cs)%nat
    /\ remote w' = remote w
    /\ files w' = files w /\ views w' = views w /\ duckdb w' = duckdb w
    /\ sql_log w' = sql_log w.
Proof.
  revert rows w. induction cs as [|c cs IH]; intros rows w Hord.
  - exists [], w. simpl. rewrite app_nil_r. unfold ret.
    repeat split; try done; lia.
  - simpl. unfold bind.
    destruct (rate_comment_ends (c_title c) (c_body c) PRODUCT PROP_NAME PROP_TYPE
                GPT_KEY (lit "o4-mini") w)
      as [(e & He & Hne & _)|[(r & ->)|(r & line & ->)]].
    + rewrite (Hord _ _ _ He) in Hne. discriminate Hne.
    + destruct r as [[score reason] raw].
      match goal with |- context [rate_all cs ?rs ?w1] =>
        destruct (IH rs w1) as (new & w' & -> & Ht & Hb & Hp & Hq & Hr & Hf & Hv & Hn & Hs);
          [exact Hord|]
      end.
      eexists (_ :: new), w'. rewrite <- app_assoc. split; [done|].
      simpl in *. rewrite Ht, Hb, Hq, length_app. simpl.
      repeat split; try done; [by constructor|lia].
    + destruct r as [[score reason] raw].
      match goal with |- context [rate_all cs ?rs ?w1] =>
        destruct (IH rs w1) as (new & w' & -> & Ht & Hb & Hp & Hq & Hr & Hf & Hv & Hn & Hs);
          [exact Hord|]
      end.
      eexists (_ :: new), w'. rewrite <- app_assoc. split; [done|].
      simpl in *. rewrite Ht, Hb, Hq, length_app. simpl.
      repeat split; try done; [by constructor|lia].
Qed.

(** X14.  When the remote call fails only with ordinary exceptions, the
    loop of [main] never stops early: it sends one request per comment and
    returns the rows it was given followed by one row per comment, in the
    order of the comments, each with the title and body of its comment
    and the property name.  It changes no file. *)
Theorem rate_all_one_row_per_comment
    (cs : list comment) (rows : list row_dict) (w : world) :
  ordinary_remote w ->
  exists new w',
    rate_all cs rows w = (Returned (rows ++ new), w')
    /\ map (fun d => (d_title d, d_body d, d_property d)) new
       = map (fun c => (c_title c, c_body c, PROP_NAME)) cs
    /\ length (requests w') = (length (requests w) + length cs)%nat
    /\ files w' = files w.
Proof.
  intros Hord.
  destruct (rate_all_run cs rows w Hord)
    as (new & w' & Hrun & Ht & Hb & Hp & Hq & _ & Hf & _).
  exists new, w'. repeat split; try done.
  clear Hrun Hq Hf. revert cs Ht Hb.
  induction new as [|d new IH]; intros [|c cs] Ht Hb; try done.
  simpl in *. injection Ht as Ht1 Ht. injection Hb as Hb1 Hb.
  apply Forall_cons in Hp as [Hp1 Hp].
  rewrite Ht1, Hb1, Hp1. f_equal. by apply IH.
Qed.

Lemma world0_ordinary (choices : list (option (list N))) :
  ordinary_remote (world0 (Completion choices)).
Proof. intros n req e H. discriminate H. Qed.

Lemma rate_all_one_row_per_comment_witness :
  let w := world0 (Completion [Some (lit "[NaN,NaN]")]) in
  exists new w',
    rate_all comments [] w = (Returned ([] ++ new), w')
    /\ map (fun d => (d_title d, d_body d, d_property d)) new
       = map (fun c => (c_title c, c_body c, PROP_NAME)) comments
    /\ length (requests w') = (length (requests w) + length comments)%nat
    /\ files w' = files w.
Proof.
  intros w. apply (rate_all_one_row_per_comment comments [] w).
  apply world0_ordinary.
Defined.

(** X15.  [main] begins with [init_db] and has no handler around it: when
    DuckDB refuses the [CREATE TABLE] text, [main] raises what DuckDB
    raised and stops where [init_db] stopped.  No request has been sent,
    nothing has been printed and no [INSERT] has been tried. *)
Theorem main_stops_at_a_refused_create
    (w : world) (db_path table_name : list N) (overwrite : bool) (e : exn) :
  (forall d, fst (duckdb w (create_table_sql table_name) (views w) d) = Raised e) ->
  let r := main db_path table_name overwrite w in
  fst r = Raised e
  /\ snd r = snd (init_db db_path table_name overwrite w)
  /\ requests (snd r) = requests w
  /\ stdout (snd r) = stdout w
  /\ sql_log (snd r) = sql_log w ++ [create_table_sql table_name].
Proof.
  intros Hno r. subst r. unfold main, bind.
  rewrite init_db_run. cbv zeta. rewrite Hno.
  cbn [fst snd handed_on requests stdout sql_log with_files with_sql_log].
  repeat split.
Qed.

Lemma main_stops_at_a_refused_create_witness :
  let w := world0 (Completion [Some (lit "[4, ok]")]) in
  let r := main DB_PATH TABLE_NAME true w in
  fst r = Raised refusal
  /\ snd r = snd (init_db DB_PATH TABLE_NAME true w)
  /\ requests (snd r) = requests w
  /\ stdout (snd r) = stdout w
  /\ sql_log (snd r) = sql_log w ++ [create_table_sql TABLE_NAME].
Proof.
  intros w r.
  apply (main_stops_at_a_refused_create w DB_PATH TABLE_NAME true refusal).
  intros d. reflexivity.
Defined.

(** [main] on a fresh path and on the store with one row, DuckDB refusing
    the texts: it raises, nothing is requested and the row is still
    there. *)
Example main_on_one_row_store :
  let w := world0 (Completion [Some (lit "[4, ok]")]) in
  fst (main DB_PATH TABLE_NAME false w) = Raised refusal
  /\ requests (snd (main DB_PATH TABLE_NAME false w)) = []
  /\ fst (main DB_PATH TABLE_NAME false one_row_store) = Raised refusal
  /\ stored_rows (snd (main DB_PATH TABLE_NAME false one_row_store)) DB_PATH TABLE_NAME
     = [one_row].
Proof. vm_compute. repeat split. Qed.

(** ** comment_rating.py: what one row can do to the batch *)

Opaque lit.

(** The three ways the body of the inner loop can leave the state: nothing
    sent; a request sent and nothing recorded; a request sent, the cell of
    the row set and the counter moved by one. *)
Lemma rate_row_ends (o : oracle) (propertyname : list N) (cols : list (list N))
    (indexc : nat) (rowc : gmap (list N) (list N)) (s : state) :
  let s' := snd (rate_row o propertyname cols indexc rowc s) in
  let req := row_request propertyname rowc in
  (Property_Rating s' = Property_Rating s /\ count s' = count s
   /\ requests (io s') = requests (io s))
  \/ (Property_Rating s' = Property_Rating s /\ count s' = count s
      /\ requests (io s') = requests (io s) ++ [req])
  \/ (rowc !! propertyname = None
      /\ (exists text, Property_Rating s' = set_cell indexc propertyname text
                                              (Property_Rating s))
      /\ count s' = count s + 1
      /\ requests (io s') = requests (io s) ++ [req]).
Proof.
  intros s' req. subst s' req.
  cbv [rate_row bind try_except getitem lift chat_completions_create
       first_content_strip set_at modify gets ret raise print
       save_to_feather_with_timestamp to_feather write_file row_request].
  case_bool_decide; [|by left].
  case_bool_decide; [|by left].
  case_bool_decide; [|by left].
  destruct (rowc !! propertyname) eqn:Hcur; [by left|].
  case_bool_decide; cbv beta iota delta [is_Exception exn_class_of]; [|by left].
  case_bool_decide; cbv beta iota delta [is_Exception exn_class_of]; [|by left].
  destruct (remote (io s) (length (requests (io s))) _) as [choices|e].
  - destruct choices as [|[content|] others];
      cbv beta iota delta [is_Exception exn_class_of]; cbn [io with_io snd].
    + right. left. by cbn.
    + right. right. cbn [snd Property_Rating count io with_io with_count
                         with_Property_Rating with_writes requests with_requests
                         with_stdout writes].
      destruct (_ =? 1).
      * destruct (disk o _ _) as [[[] msg]|];
          cbn; (split; [done|split; [by eexists|by split]]).
      * cbn. split; [done|split; [by eexists|by split]].
    + right. left. by cbn.
  - destruct e as [[] msg]; right; left; by cbn.
Qed.

(** The body of the inner loop leaves the list of properties alone. *)
Lemma rate_row_Property (o : oracle) (propertyname : list N) (cols : list (list N))
    (indexc : nat) (rowc : gmap (list N) (list N)) (s : state) :
  Property (snd (rate_row o propertyname cols indexc rowc s)) = Property s.
Proof.
  cbv [rate_row bind try_except getitem lift chat_completions_create
       first_content_strip set_at modify gets ret raise print
       save_to_feather_with_timestamp to_feather write_file].
  repeat (case_bool_decide; [|done]).
  destruct (rowc !! propertyname); [done|].
  repeat (case_bool_decide; [|done]).
  destruct (remote (io s) (length (requests (io s))) _) as [choices|e].
  - destruct choices as [|[content|] others]; try done.
    cbn [snd Property_Rating count io with_io with_count
         with_Property_Rating with_writes requests with_requests
         with_stdout writes].
    destruct (_ =? 1); [|done].
    by destruct (disk o _ _) as [[[] msg]|].
  - by destruct e as [[] msg].
Qed.

Lemma cell_kept_refl (p : list N) (row : gmap (list N) (list N)) : cell_kept p row row.
Proof. by split. Qed.

Lemma cell_kept_trans (p : list N) (r1 r2 r3 : gmap (list N) (list N)) :
  cell_kept p r1 r2 -> cell_kept p r2 r3 -> cell_kept p r1 r3.
Proof.
  intros [H1 H1'] [H2 H2']. split.
  - intros v Hv. by apply H2, H1.
  - intros c Hc. by rewrite H2', H1'.
Qed.

Lemma cell_kept_set (p text : list N) (i : nat) (rows : list (gmap (list N) (list N))) :
  (rows !! i) ≫= (.!! p) = None ->
  Forall2 (cell_kept p) rows (alter (insert p text) i rows).
Proof.
  intros Hlive. apply Forall2_same_length_lookup_2; [by rewrite length_alter|].
  intros j row row' Hrow Hrow'.
  destruct (decide (i = j)) as [->|Hne].
  - rewrite list_lookup_alter_eq, Hrow in Hrow'. injection Hrow' as <-.
    rewrite Hrow in Hlive. simpl in Hlive. split.
    + intros v Hv. by rewrite Hlive in Hv.
    + intros c Hc. by rewrite lookup_insert_ne.
  - rewrite list_lookup_alter_ne, Hrow in Hrow' by done. injection Hrow' as <-.
    apply cell_kept_refl.
Qed.

Lemma cost_at_most_refl (n : nat) (s : state) : cost_at_most n s s.
Proof. exists []. rewrite app_nil_r. simpl. repeat split; lia. Qed.

Lemma cost_at_most_trans (n m : nat) (s1 s2 s3 : state) :
  cost_at_most n s1 s2 -> cost_at_most m s2 s3 -> cost_at_most (n + m) s1 s3.
Proof.
  intros (l1 & H1 & L1 & C1) (l2 & H2 & L2 & C2). exists (l1 ++ l2).
  rewrite H2, H1, <- app_assoc, length_app. repeat split; lia.
Qed.

(** The inner loop over rows that are the rows of the frame: it keeps the
    shape of the frame and the values it finds, and it pays at most one
    request per row. *)
Lemma rate_rows_ends (o : oracle) (propertyname : list N) (cols : list (list N))
    (rows : list (nat * gmap (list N) (list N))) (s : state) :
  NoDup rows.*1 ->
  (forall i row, (i, row) ∈ rows ->
                 (data (Property_Rating s) !! i) ≫= (.!! propertyname)
                 = row !! propertyname) ->
  let s' := snd (rate_rows o propertyname cols rows s) in
  columns (Property_Rating s') = columns (Property_Rating s)
  /\ Forall2 (cell_kept propertyname) (data (Property_Rating s))
             (data (Property_Rating s'))
  /\ cost_at_most (length rows) s s'
  /\ Property s' = Property s.
Proof.
  revert s. induction rows as [|[i rowc] rest IH]; intros s Hnd Hlive; simpl.
  - repeat split; [|apply cost_at_most_refl].
    apply Forall_Forall2_diag, Forall_forall. intros. apply cell_kept_refl.
  - apply NoDup_cons in Hnd as [Hi Hnd].
    pose proof (rate_row_ends o propertyname cols i rowc s) as Hrow. cbv zeta in Hrow.
    assert (Property (snd (rate_row o propertyname cols i rowc s)) = Property s) as HP.
    { apply rate_row_Property. }
    unfold bind, gets.
    destruct (rate_row o propertyname cols i rowc s) as [r1 s1]. simpl in Hrow, HP.
    assert (columns (Property_Rating s1) = columns (Property_Rating s)
            /\ Forall2 (cell_kept propertyname) (data (Property_Rating s))
                       (data (Property_Rating s1))
            /\ cost_at_most 1 s s1
            /\ (forall j row, (j, row) ∈ rest ->
                   (data (Property_Rating s1) !! j) ≫= (.!! propertyname)
                   = row !! propertyname)) as (Hc1 & Hd1 & Hq1 & Hlive1).
    { destruct Hrow as [(HPR & Hcnt & Hreq)|[(HPR & Hcnt & Hreq)|(Hcur & (text & HPR) & Hcnt & Hreq)]].
      - rewrite HPR. repeat split.
        + apply Forall_Forall2_diag, Forall_forall. intros. apply cell_kept_refl.
        + exists []. rewrite app_nil_r, Hcnt. simpl. repeat split; try done; lia.
        + intros j row Hin. apply Hlive. by right.
      - rewrite HPR. repeat split.
        + apply Forall_Forall2_diag, Forall_forall. intros. apply cell_kept_refl.
        + eexists [_]. rewrite Hcnt. simpl. repeat split; try done; lia.
        + intros j row Hin. apply Hlive. by right.
      - rewrite HPR. simpl. repeat split.
        + apply cell_kept_set. rewrite (Hlive i rowc) by left. done.
        + eexists [_]. rewrite Hcnt. simpl. repeat split; try done; lia.
        + intros j row Hin. rewrite list_lookup_alter_ne.
          * apply Hlive. by right.
          * intros ->. apply Hi. apply list_elem_of_fmap. by exists (j, row). }
    assert (forall s2, (s2 = s1 \/ s2 = snd (rate_rows o propertyname cols rest s1)) ->
              columns (Property_Rating s2) = columns (Property_Rating s)
              /\ Forall2 (cell_kept propertyname) (data (Property_Rating s))
                         (data (Property_Rating s2))
              /\ cost_at_most (S (length rest)) s s2
              /\ Property s2 = Property s) as Hboth.
    { intros s2 [->| ->].
      - repeat split; try done.
        destruct Hq1 as (l & ? & ? & ?). exists l. repeat split; try done; lia.
      - destruct (IH s1 Hnd Hlive1) as (Hc2 & Hd2 & Hq2 & HP2). repeat split.
        + by rewrite Hc2.
        + eapply Forall2_trans; [|exact Hd1|exact Hd2].
          intros x y z. apply cell_kept_trans.
        + apply (cost_at_most_trans 1 _ _ _ _ Hq1 Hq2).
        + by rewrite HP2. }
    destruct r1 as [[]|e]; simpl.
    + destruct (max_count <=? count s1); simpl; apply Hboth; auto.
    + apply Hboth. auto.
Qed.

Lemma iterrows_lookup (df : frame) (i : nat) (row : gmap (list N) (list N)) :
  (i, row) ∈ iterrows df -> data df !! i = Some row.
Proof.
  intros Hin. apply list_elem_of_lookup in Hin as [j Hj].
  unfold iterrows in Hj. apply list_lookup_imap_Some in Hj as (y & Hy & [= -> ->]).
  done.
Qed.

Lemma iterrows_NoDup (df : frame) : NoDup (iterrows df).*1.
Proof.
  apply NoDup_alt. intros i j x Hi Hj. unfold iterrows in *.
  rewrite list_lookup_fmap, list_lookup_imap in Hi, Hj.
  destruct (data df !! i); [|done]. destruct (data df !! j); [|done].
  simpl in *. congruence.
Qed.

Lemma iterrows_length (df : frame) : length (iterrows df) = length (data df).
Proof. unfold iterrows. apply length_imap. Qed.

(** The body of the outer loop for one property. *)
Lemma rate_property_ends (o : oracle) (propertyname : list N) (s : state) :
  let s' := snd (rate_property o propertyname s) in
  let cols := columns (Property_Rating s) in
  columns (Property_Rating s')
  = (if bool_decide (propertyname ∈ cols) then cols else cols ++ [propertyname])
  /\ Forall2 (fun row row' =>
                (propertyname ∈ cols ->
                 forall v, row !! propertyname = Some v ->
                           row' !! propertyname = Some v)
                /\ (forall c, c <> propertyname -> row' !! c = row !! c))
             (data (Property_Rating s)) (data (Property_Rating s'))
  /\ (exists sent,
        requests (io s') = requests (io s) ++ sent
        /\ (length sent <= length (data (Property_Rating s)))%nat
        /\ count s' <= N.of_nat (length sent))
  /\ Property s' = Property s.
Proof.
  intros s' cols. subst s'.
  unfold rate_property, bind, gets, lift, print, modify, ret.
  cbn [io with_io snd fst Property_Rating with_Property_Rating with_count].
  fold cols.
  case_bool_decide as Hin.
  - match goal with
    | |- context [rate_rows o propertyname ?c ?r ?s2] =>
        pose proof (rate_rows_ends o propertyname c r s2 (iterrows_NoDup _)) as Hrows;
        destruct (rate_rows o propertyname c r s2) as [r3 s3]
    end.
    cbn [snd Property_Rating with_count with_io io requests with_stdout count
         Property] in Hrows.
    destruct Hrows as (Hc & Hd & (sent & Hsent & Hlen & Hcount) & HP).
    { intros i row Hi. apply iterrows_lookup in Hi. cbn [data] in Hi. by rewrite Hi. }
    rewrite iterrows_length in Hlen.
    cbn [count with_count requests io with_io with_requests with_stdout] in Hsent, Hcount.
    assert (columns (Property_Rating s3) = cols
            /\ Forall2 (fun row row' =>
                  (propertyname ∈ cols ->
                   forall v, row !! propertyname = Some v ->
                             row' !! propertyname = Some v)
                  /\ (forall c, c <> propertyname -> row' !! c = row !! c))
                 (data (Property_Rating s)) (data (Property_Rating s3))
            /\ (exists sent,
                  requests (io s3) = requests (io s) ++ sent
                  /\ (length sent <= length (data (Property_Rating s)))%nat
                  /\ count s3 <= N.of_nat (length sent))
            /\ Property s3 = Property s) as Hend.
    { split; [done|]. split; [|split; [|done]].
      - eapply Forall2_impl; [exact Hd|]. intros row row' [? ?]. by split.
      - exists sent. repeat split; [done|done|lia]. }
    destruct r3 as [[]|e]; exact Hend.
  - match goal with
    | |- context [rate_rows o propertyname ?c ?r ?s2] =>
        pose proof (rate_rows_ends o propertyname c r s2 (iterrows_NoDup _)) as Hrows;
        destruct (rate_rows o propertyname c r s2) as [r3 s3]
    end.
    cbn [snd Property_Rating with_count with_io io requests with_stdout count
         Property with_Property_Rating data columns] in Hrows.
    destruct Hrows as (Hc & Hd & (sent & Hsent & Hlen & Hcount) & HP).
    { intros i row Hi. apply iterrows_lookup in Hi. cbn [data] in Hi. by rewrite Hi. }
    rewrite iterrows_length in Hlen. cbn [data] in Hlen. rewrite length_fmap in Hlen.
    cbn [count with_count requests io with_io with_requests with_stdout
         with_Property_Rating] in Hsent, Hcount.
    assert (columns (Property_Rating s3) = cols ++ [propertyname]
            /\ Forall2 (fun row row' =>
                  (propertyname ∈ cols ->
                   forall v, row !! propertyname = Some v ->
                             row' !! propertyname = Some v)
                  /\ (forall c, c <> propertyname -> row' !! c = row !! c))
                 (data (Property_Rating s)) (data (Property_Rating s3))
            /\ (exists sent,
                  requests (io s3) = requests (io s) ++ sent
                  /\ (length sent <= length (data (Property_Rating s)))%nat
                  /\ count s3 <= N.of_nat (length sent))
            /\ Property s3 = Property s) as Hend.
    { split; [done|]. split; [|split; [|done]].
      - rewrite Forall2_fmap_l in Hd.
        eapply Forall2_impl; [exact Hd|]. intros row row' [_ Hother]. split; [done|].
        intros c Hc'. rewrite Hother by done. by apply lookup_delete_ne.
      - exists sent. repeat split; [done|done|lia]. }
    destruct r3 as [[]|e]; exact Hend.
Qed.

(** The outer loop over the properties. *)
Lemma rate_properties_ends (o : oracle) (names : list (list N)) (s : state) :
  let s' := snd (rate_properties o names s) in
  (exists added,
     columns (Property_Rating s') = columns (Property_Rating s) ++ added
     /\ forall c, c ∈ added -> c ∈ names)
  /\ Forall2 (row_kept (columns (Property_Rating s)) names)
             (data (Property_Rating s)) (data (Property_Rating s'))
  /\ (exists sent,
        requests (io s') = requests (io s) ++ sent
        /\ (length sent <= length names * length (data (Property_Rating s)))%nat)
  /\ Property s' = Property s.
Proof.
  revert s. induction names as [|p rest IH]; intros s; simpl.
  - split; [exists []; split; [by rewrite app_nil_r|by intros c Hc; apply elem_of_nil in Hc]|].
    split; [|split; [exists []; by rewrite app_nil_r|done]].
    apply Forall_Forall2_diag, Forall_forall. intros row _. by split.
  - unfold bind.
    pose proof (rate_property_ends o p s) as Hp. cbv zeta in Hp.
    destruct (rate_property o p s) as [r1 s1]. cbn [snd] in Hp.
    destruct Hp as (Hc1 & Hd1 & (sent1 & Hs1 & Hl1 & _) & HP1).
    assert (exists added1,
              columns (Property_Rating s1) = columns (Property_Rating s) ++ added1
              /\ forall c, c ∈ added1 -> c = p) as (added1 & Hc1' & Hadd1).
    { rewrite Hc1. case_bool_decide.
      - exists []. split; [by rewrite app_nil_r|]. by intros c Hc; apply elem_of_nil in Hc.
      - exists [p]. split; [done|]. intros c Hc. by apply list_elem_of_singleton in Hc. }
    assert (Forall2 (row_kept (columns (Property_Rating s)) (p :: rest))
                    (data (Property_Rating s)) (data (Property_Rating s1))) as Hk1.
    { eapply Forall2_impl; [exact Hd1|]. intros row row' [Hval Hoth]. split.
      - intros c v Hc Hv. destruct (decide (c = p)) as [->|Hne].
        + by apply Hval.
        + by rewrite Hoth.
      - intros c Hc. apply Hoth. intros ->. apply Hc. by left. }
    assert (length (data (Property_Rating s1)) = length (data (Property_Rating s)))
      as Hlen1 by (symmetry; by eapply Forall2_length).
    destruct r1 as [[]|e]; cbn [snd].
    + destruct (IH s1) as ((added2 & Hc2 & Hadd2) & Hd2 & (sent2 & Hs2 & Hl2) & HP2).
      split; [|split; [|split]].
      * exists (added1 ++ added2). rewrite Hc2, Hc1', <- app_assoc. split; [done|].
        intros c Hc. apply elem_of_app in Hc as [Hc|Hc].
        -- rewrite (Hadd1 c Hc). by left.
        -- right. by apply Hadd2.
      * eapply Forall2_trans; [|exact Hk1|exact Hd2].
        intros r1 r2 r3 [Hv1 Ho1] [Hv2 Ho2]. split.
        -- intros c v Hc Hv. apply Hv2; [|by apply (Hv1 c)].
           rewrite Hc1'. apply elem_of_app. by left.
        -- intros c Hc. rewrite Ho2, Ho1; [done|done|].
           intros Hin. apply Hc. by right.
      * exists (sent1 ++ sent2). rewrite Hs2, Hs1, <- app_assoc. split; [done|].
        rewrite length_app. rewrite Hlen1 in Hl2. lia.
      * by rewrite HP2.
    + split; [|split; [|split]]; try done.
      * exists added1. split; [done|]. intros c Hc. rewrite (Hadd1 c Hc). by left.
      * exists sent1. split; [done|]. lia.
Qed.

(** X16.  Whatever the remote model and the disk do, and however the batch
    ends, the frame comes out with the same rows in the same order.  Every
    cell that held a value in one of its columns still holds that value (a
    rating is never overwritten), the columns that are not rated
    properties are untouched, and the only columns added are columns of
    rated properties, put after the existing ones. *)
Theorem batch_keeps_the_frame (o : oracle) (names : list (list N)) (s : state) :
  let df := Property_Rating s in
  let df' := Property_Rating (snd (rate_properties o names s)) in
  (exists added, columns df' = columns df ++ added /\ forall c, c ∈ added -> c ∈ names)
  /\ length (data df') = length (data df)
  /\ Forall2 (row_kept (columns df) names) (data df) (data df').
Proof.
  intros df df'. subst df df'.
  destruct (rate_properties_ends o names s) as (Hc & Hd & _).
  split; [done|]. split; [|done]. symmetry. by eapply Forall2_length.
Qed.

(** X17.  There is no retry: the batch only adds to the requests sent, and
    adds at most one per row and property. *)
Theorem batch_sends_at_most_one_request_per_cell
    (o : oracle) (names : list (list N)) (s : state) :
  exists sent,
    requests (io (snd (rate_properties o names s))) = requests (io s) ++ sent
    /\ (length sent <= length names * length (data (Property_Rating s)))%nat.
Proof. by destruct (rate_properties_ends o names s) as (_ & _ & H & _). Qed.

(** ** comment_rating.py: running the batch again *)

Lemma rate_row_skips (o : oracle) (propertyname : list N) (cols : list (list N))
    (indexc : nat) (rowc : gmap (list N) (list N)) (s : state) :
  lit "ASIN" ∈ cols -> propertyname ∈ cols ->
  rowc !! lit "ASIN" ∉ (Some <$> asin_list) \/ is_Some (rowc !! propertyname) ->
  rate_row o propertyname cols indexc rowc s = (Returned tt, s).
Proof.
  intros HA Hp Hskip. unfold rate_row, bind, getitem.
  rewrite (bool_decide_eq_true_2 _ HA). cbv [ret].
  case_bool_decide as Hin; [|done].
  destruct Hskip as [Hout|[v Hv]]; [done|].
  rewrite (bool_decide_eq_true_2 _ Hp). cbv [ret]. by rewrite Hv.
Qed.

Lemma rate_rows_skips (o : oracle) (propertyname : list N) (cols : list (list N))
    (rows : list (nat * gmap (list N) (list N))) (s : state) :
  lit "ASIN" ∈ cols -> propertyname ∈ cols ->
  Forall (fun r => r.2 !! lit "ASIN" ∉ (Some <$> asin_list)
                   \/ is_Some (r.2 !! propertyname)) rows ->
  rate_rows o propertyname cols rows s = (Returned tt, s).
Proof.
  intros HA Hp Hall. induction Hall as [|[i rowc] rest Hrow Hrest IH]; [done|].
  simpl. unfold bind. rewrite rate_row_skips by done.
  unfold gets. simpl. by destruct (max_count <=? count s).
Qed.

(** X18.  Rating a property again on a frame in which every row of a
    listed product already has a value for it sends no request, writes no
    file and leaves the frame as it is: rated rows are skipped, so a batch
    that was interrupted can be run again. *)
Theorem rate_property_nothing_to_do (o : oracle) (propertyname : list N) (s : state) :
  lit "ASIN" ∈ columns (Property_Rating s) ->
  propertyname ∈ columns (Property_Rating s) ->
  Forall (fun row => row !! lit "ASIN" ∉ (Some <$> asin_list)
                     \/ is_Some (row !! propertyname))
         (data (Property_Rating s)) ->
  exists s',
    rate_property o propertyname s = (Returned tt, s')
    /\ Property_Rating s' = Property_Rating s
    /\ requests (io s') = requests (io s)
    /\ writes s' = writes s
    /\ count s' = 0.
Proof.
  intros HA Hp Hall.
  unfold rate_property, bind, gets, lift, print, modify.
  cbn [io with_io snd fst Property_Rating with_Property_Rating with_count].
  rewrite (bool_decide_eq_true_2 _ Hp). cbv [ret].
  rewrite rate_rows_skips; [|done|done|].
  - eexists. split; [done|]. by cbn.
  - apply Forall_forall. intros [i row] Hin. apply iterrows_lookup in Hin.
    rewrite Forall_forall in Hall. apply Hall. by eapply list_elem_of_lookup_2.
Qed.

(** ** comment_rating.py: one row that is rated *)

(** X19.  For a row of a listed product with no value yet: when the remote
    call raises an ordinary exception, or its reply has no choice or no
    content, the error is printed with the index of the row and the loop
    goes on; the cell stays empty and the counter stays where it was, so
    the row is tried again on the next run. *)
Theorem rate_row_failed_call (o : oracle) (propertyname : list N)
    (cols : list (list N)) (indexc : nat) (rowc : gmap (list N) (list N))
    (s : state) (e : exn) :
  lit "ASIN" ∈ cols -> lit "Body" ∈ cols -> lit "Title" ∈ cols ->
  propertyname ∈ cols ->
  rowc !! lit "ASIN" ∈ (Some <$> asin_list) ->
  rowc !! propertyname = None ->
  reply_of (remote (io s) (length (requests (io s))) (row_request propertyname rowc))
  = Raised e ->
  is_Exception e = true ->
  rate_row o propertyname cols indexc rowc s
  = (Returned tt,
     with_io
       (with_stdout
          (stdout (io s)
             ++ [lit "Error processing index " ++ repr_nat indexc ++ lit ": "
                   ++ exn_str e])
          (with_requests (requests (io s) ++ [row_request propertyname rowc]) (io s)))
       s).
Proof.
  intros HA HB HT Hp Hin Hcur Hreply He.
  unfold rate_row, bind, getitem, try_except, ret.
  rewrite (bool_decide_eq_true_2 _ HA). cbv beta iota.
  rewrite (bool_decide_eq_true_2 _ Hin). cbv beta iota.
  rewrite (bool_decide_eq_true_2 _ Hp). cbv beta iota.
  rewrite Hcur. cbv beta iota.
  rewrite (bool_decide_eq_true_2 _ HB). cbv beta iota.
  rewrite (bool_decide_eq_true_2 _ HT). cbv beta iota.
  unfold lift, chat_completions_create. fold (row_request propertyname rowc).
  destruct (remote (io s) (length (requests (io s))) (row_request propertyname rowc))
    as [choices|e'].
  - rewrite first_content_strip_any. simpl in Hreply. rewrite Hreply.
    cbn [fst snd]. rewrite He. by cbn.
  - simpl in Hreply. injection Hreply as ->. rewrite He. by cbn.
Qed.

(** A decidable fact about given data, settled by running its decision. *)
Ltac by_decide :=
  match goal with
  | |- ?P => apply (bool_decide_unpack P); vm_compute; exact I
  end.

Lemma rate_property_nothing_to_do_witness :
  let o := full_disk rated_comments [lit "balance"] in
  let s := with_Property_Rating rated_comments (start ∅) in
  exists s',
    rate_property o (lit "balance") s = (Returned tt, s')
    /\ Property_Rating s' = Property_Rating s
    /\ requests (io s') = requests (io s)
    /\ writes s' = writes s
    /\ count s' = 0.
Proof.
  intros o s. apply (rate_property_nothing_to_do o (lit "balance") s).
  - by_decide.
  - by_decide.
  - by_decide.
Defined.

Lemma rate_row_failed_call_witness :
  let o := full_disk three_comments [lit "balance"] in
  let rowc : gmap (list N) (list N) :=
    {[ lit "ASIN" := lit "B0001YH1A2"; lit "Title" := lit "t1"; lit "Body" := lit "b1" ]} in
  let cols := [lit "ASIN"; lit "Title"; lit "Body"; lit "balance"] in
  let s := State (world0 (ApiFault (Exn OtherException (lit "Connection error."))))
             ∅ ∅ [] three_comments [] 0 None in
  rate_row o (lit "balance") cols 0 rowc s
  = (Returned tt,
     with_io
       (with_stdout [lit "Error processing index 0: Connection error."]
          (with_requests [row_request (lit "balance") rowc] (io s)))
       s).
Proof.
  intros o rowc cols s.
  apply (rate_row_failed_call o (lit "balance") cols 0 rowc s
           (Exn OtherException (lit "Connection error."))).
  - by_decide.
  - by_decide.
  - by_decide.
  - by_decide.
  - by_decide.
  - vm_compute. reflexivity.
  - reflexivity.
  - reflexivity.
Defined.

(** X20.  For a row of a listed product with no value yet, on a disk whose
    faults are ordinary: when the reply has content, the cell of that row
    is set to the trimmed reply, the counter goes up by one and one request
    has been sent.  A checkpoint file is tried exactly when the new
    counter is 1, 21, 41, ... (one more than a multiple of 20), and the
    body of the loop returns whether or not that write went through. *)
Theorem rate_row_rates (o : oracle) (propertyname : list N)
    (cols : list (list N)) (indexc : nat) (rowc : gmap (list N) (list N))
    (s : state) (content : list N) (others : list (option (list N))) :
  ordinary_disk o ->
  lit "ASIN" ∈ cols -> lit "Body" ∈ cols -> lit "Title" ∈ cols ->
  propertyname ∈ cols ->
  rowc !! lit "ASIN" ∈ (Some <$> asin_list) ->
  rowc !! propertyname = None ->
  remote (io s) (length (requests (io s))) (row_request propertyname rowc)
  = Completion (Some content :: others) ->
  exists s',
    rate_row o propertyname cols indexc rowc s = (Returned tt, s')
    /\ Property_Rating s'
       = set_cell indexc propertyname (strip content) (Property_Rating s)
    /\ count s' = count s + 1
    /\ requests (io s') = requests (io s) ++ [row_request propertyname rowc]
    /\ length (writes s')
       = (length (writes s) + (if ((count s + 1) mod 20 =? 1)%N then 1 else 0))%nat.
Proof.
  intros Hdisk HA HB HT Hp Hin Hcur Hreply.
  unfold rate_row, bind, getitem, try_except, ret.
  rewrite (bool_decide_eq_true_2 _ HA). cbv beta iota.
  rewrite (bool_decide_eq_true_2 _ Hin). cbv beta iota.
  rewrite (bool_decide_eq_true_2 _ Hp). cbv beta iota.
  rewrite Hcur. cbv beta iota.
  rewrite (bool_decide_eq_true_2 _ HB). cbv beta iota.
  rewrite (bool_decide_eq_true_2 _ HT). cbv beta iota.
  unfold lift, chat_completions_create. fold (row_request propertyname rowc).
  rewrite Hreply. cbv [first_content_strip ret set_at modify gets].
  cbn [fst snd count with_count Property_Rating with_Property_Rating io with_io].
  destruct (_ =? 1).
  - rewrite save_to_feather_with_timestamp_run by done. cbv zeta.
    destruct (disk o _ _) as [e|]; cbn [fst snd]; unfold print, modify;
      cbn [fst snd]; (eexists; split; [reflexivity|]); cbn;
      rewrite length_app; by repeat split.
  - eexists. split; [reflexivity|]. cbn. repeat split. lia.
Qed.

Lemma rate_row_rates_witness :
  let o := full_disk three_comments [lit "balance"] in
  let rowc : gmap (list N) (list N) :=
    {[ lit "ASIN" := lit "B0001YH1A2"; lit "Title" := lit "t1"; lit "Body" := lit "b1" ]} in
  let cols := [lit "ASIN"; lit "Title"; lit "Body"; lit "balance"] in
  let s := with_Property_Rating three_comments (start ∅) in
  exists s',
    rate_row o (lit "balance") cols 0 rowc s = (Returned tt, s')
    /\ Property_Rating s' = set_cell 0 (lit "balance") (lit "7,good") three_comments
    /\ count s' = 1
    /\ requests (io s') = [row_request (lit "balance") rowc]
    /\ length (writes s') = 1%nat.
Proof.
  intros o rowc cols s.
  apply (rate_row_rates o (lit "balance") cols 0 rowc s (lit " 7,good ") []).
  - intros n path e H. injection H as <-. reflexivity.
  - by_decide.
  - by_decide.
  - by_decide.
  - by_decide.
  - by_decide.
  - vm_compute. reflexivity.
  - reflexivity.
Defined.

Transparent lit.

(** ** comment_rating.py: the numbers drawn from the replies *)

Import CommentRatingNumbers.

Section Numbers.
Variable lower : list N -> list N.
Variable is_word : N -> bool.

Lemma ten_or_digit_shape (s m : list N) :
  ten_or_digit is_word s = Some m ->
  m = [chr "1"; chr "0"] \/ exists c, m = [c] /\ is_0_9 c = true.
Proof.
  unfold ten_or_digit. intros H.
  destruct s as [|c1 [|c2 rest]].
  - done.
  - destruct (is_0_9 c1 && _) eqn:E; [|done]. injection H as <-.
    apply andb_true_iff in E as [E _]. right. by exists c1.
  - destruct ((c1 =? chr "1") && (c2 =? chr "0") && _) eqn:E10.
    + injection H as <-. apply andb_true_iff in E10 as [E10 _].
      apply andb_true_iff in E10 as [E1 E0].
      apply N.eqb_eq in E1 as ->. apply N.eqb_eq in E0 as ->. by left.
    + destruct (is_0_9 c1 && _) eqn:E; [|done]. injection H as <-.
      apply andb_true_iff in E as [E _]. right. by exists c1.
Qed.

Lemma search_shape (before : option N) (s m : list N) :
  search is_word before s = Some m ->
  m = [chr "1"; chr "0"] \/ exists c, m = [c] /\ is_0_9 c = true.
Proof.
  revert before. induction s as [|c s IH]; intros before; simpl.
  - destruct (boundary is_word before None); [|done].
    destruct (ten_or_digit is_word []) eqn:E; [|done].
    intros [= <-]. by eapply ten_or_digit_shape.
  - destruct (if boundary is_word before (Some c) then ten_or_digit is_word (c :: s)
              else None) as [m'|] eqn:E.
    + intros [= <-]. destruct (boundary is_word before (Some c)); [|done].
      by eapply ten_or_digit_shape.
    + apply IH.
Qed.

Lemma search_digit (c : N) :
  is_0_9 c = true -> is_word c = true -> search is_word None [c] = Some [c].
Proof.
  intros Hc Hw. cbn [search head]. unfold ten_or_digit. unfold boundary, word_at.
  cbn [head]. by rewrite Hc, Hw.
Qed.

Lemma search_ten :
  is_word (chr "1") = true -> is_word (chr "0") = true ->
  search is_word None [chr "1"; chr "0"] = Some [chr "1"; chr "0"].
Proof.
  intros H1 H0. cbn [search head]. unfold ten_or_digit. unfold boundary, word_at.
  cbn [head]. rewrite H1, H0. reflexivity.
Qed.

Lemma decimal_value_0_9 (c : N) :
  is_0_9 c = true -> decimal_value c = Some (Z.of_N (c - 48)).
Proof.
  unfold is_0_9. intros H. unfold decimal_value, decimal_zeros.
  cbn [decimal_in]. change (48 + 9) with 57. by rewrite H.
Qed.

Lemma int_of_match {S : Type} (m : list N) (s : S) :
  m = [chr "1"; chr "0"] \/ (exists c, m = [c] /\ is_0_9 c = true) ->
  exists v, int_ m s = (Returned v, s) /\ (0 <= v <= 10)%Z.
Proof.
  intros [->|(c & -> & Hc)].
  - exists 10%Z. split; [reflexivity|lia].
  - exists (Z.of_N (c - 48)). unfold int_, int_digits.
    rewrite (decimal_value_0_9 c Hc). split; [reflexivity|].
    unfold is_0_9 in Hc. apply andb_true_iff in Hc as [H1 H2].
    apply N.leb_le in H1. apply N.leb_le in H2. lia.
Qed.

Lemma re_split_not_empty (cur x : list N) : re_split cur x <> [].
Proof.
  revert cur. induction x as [|c x IH]; intros cur; cbn [re_split]; [discriminate|].
  destruct ((c =? chr ",") || (c =? 65292)); [discriminate|apply IH].
Qed.

Lemma re_split_first (cur a : list N) (sep : N) (b : list N) :
  forallb (fun c => negb (is_separator c)) a = true ->
  is_separator sep = true ->
  re_split cur (a ++ sep :: b) = (cur ++ a) :: re_split [] b.
Proof.
  intros Ha Hsep. revert cur. induction a as [|c a IH]; intros cur; cbn [re_split app].
  - unfold is_separator in Hsep. rewrite Hsep. by rewrite app_nil_r.
  - simpl in Ha. apply andb_true_iff in Ha as [Hc Ha].
    unfold is_separator in Hc. apply negb_true_iff in Hc. rewrite Hc.
    rewrite (IH Ha). by rewrite <- app_assoc.
Qed.

Lemma re_split_whole (cur a : list N) :
  forallb (fun c => negb (is_separator c)) a = true ->
  re_split cur a = [cur ++ a].
Proof.
  intros Ha. revert cur. induction a as [|c a IH]; intros cur; cbn [re_split app].
  - by rewrite app_nil_r.
  - simpl in Ha. apply andb_true_iff in Ha as [Hc Ha].
    unfold is_separator in Hc. apply negb_true_iff in Hc. rewrite Hc.
    rewrite (IH Ha). by rewrite <- app_assoc.
Qed.

Lemma find_number_or_nan_range {S : Type} (x : option (list N)) (s : S) :
  exists r, find_number_or_nan lower is_word x s = (Returned r, s)
            /\ match r with
               | Some v => (0 <= v <= 10)%Z
               | None => True
               end.
Proof.
  destruct x as [x|]; simpl; [|by exists None].
  destruct (contains (lit "nan") (lower x)); [by exists None|].
  destruct (search is_word None x) as [m|] eqn:E; [|by exists None].
  destruct (int_of_match m s (search_shape _ _ _ E)) as (v & Hv & Hr).
  exists (Some v). unfold bind. by rewrite Hv.
Qed.

End Numbers.

(** X21.  [process_element] never fails, whatever the cell holds, and what
    it returns is NaN or a whole number from 0 to 10. *)
Theorem process_element_range {S : Type}
    (lower : list N -> list N) (is_word : N -> bool)
    (x : option (list N)) (s : S) :
  exists r,
    process_element lower is_word x s = (Returned r, s)
    /\ match r with
       | Some v => (0 <= v <= 10)%Z
       | None => True
       end.
Proof.
  destruct x as [x|]; unfold process_element; [|by exists None].
  destruct (re_split [] x) as [|first rest] eqn:E.
  - by apply re_split_not_empty in E.
  - exact (find_number_or_nan_range lower is_word (Some first) s).
Qed.

(** X22.  Only what stands in front of the first comma counts, be it the
    ASCII comma or the full-width one: the rest of the cell has no
    influence on the number drawn from it. *)
Theorem process_element_first_piece {S : Type}
    (lower : list N -> list N) (is_word : N -> bool)
    (first : list N) (sep : N) (rest : list N) (s : S) :
  forallb (fun c => negb (is_separator c)) first = true ->
  is_separator sep = true ->
  process_element lower is_word (Some (first ++ sep :: rest)) s
  = process_element lower is_word (Some first) s.
Proof.
  intros Hf Hsep. unfold process_element.
  by rewrite (re_split_first [] first sep rest Hf Hsep), (re_split_whole [] first Hf).
Qed.

Lemma process_element_first_piece_witness :
  process_element ascii_lower ascii_word (Some (lit "7" ++ chr "," :: lit "good, 10")) tt
  = process_element ascii_lower ascii_word (Some (lit "7")) tt.
Proof.
  apply (process_element_first_piece ascii_lower ascii_word (lit "7") (chr ",")
           (lit "good, 10") tt); reflexivity.
Defined.

(** X23.  A cell in the form the prompt asks for, a score from 0 to 10,
    a comma and the reason, gives back that score; this needs the digits
    to be word characters and the lowered score not to hold [nan], as is
    the case with the tables of the interpreter. *)
Theorem process_element_reads_the_score {S : Type}
    (lower : list N -> list N) (is_word : N -> bool)
    (v : N) (sep : N) (rest : list N) (s : S) :
  v <= 10 ->
  (forall c, is_0_9 c = true -> is_word c = true) ->
  contains (lit "nan") (lower (repr_N v)) = false ->
  is_separator sep = true ->
  process_element lower is_word (Some (repr_N v ++ sep :: rest)) s
  = (Returned (Some (Z.of_N v)), s).
Proof.
  intros Hv Hw Hnan Hsep.
  assert (In v [0; 1; 2; 3; 4; 5; 6; 7; 8; 9; 10]) as Hin.
  { destruct v as [|p]; [by left|].
    do 10 (destruct p as [p|p|]; try lia; simpl; auto 12). }
  unfold process_element.
  assert (forallb (fun c => negb (is_separator c)) (repr_N v) = true) as Hf.
  { simpl in Hin. repeat (destruct Hin as [<-|Hin]; [reflexivity|]). done. }
  rewrite (re_split_first [] (repr_N v) sep rest Hf Hsep).
  cbn [app]. unfold find_number_or_nan. rewrite Hnan.
  assert (search is_word None (repr_N v) = Some (repr_N v)
          /\ int_ (repr_N v) s = (Returned (Z.of_N v), s)) as [-> Hint].
  { destruct (decide (v = 10)) as [->|Hten].
    - split; [|reflexivity]. apply search_ten; by apply Hw.
    - assert (repr_N v = [48 + v] /\ is_0_9 (48 + v) = true) as [-> Hd].
      { simpl in Hin. repeat (destruct Hin as [<-|Hin]; [by split|]). done. }
      split; [apply search_digit; [done|by apply Hw]|].
      unfold int_, int_digits. rewrite (decimal_value_0_9 _ Hd).
      replace (48 + v - 48) with v by lia.
      by replace (10 * 0 + Z.of_N v)%Z with (Z.of_N v) by lia. }
  unfold bind. by rewrite Hint.
Qed.

Lemma process_element_reads_the_score_witness :
  process_element ascii_lower ascii_word (Some (lit "10,very good")) tt
  = (Returned (Some 10%Z), tt).
Proof.
  apply (process_element_reads_the_score ascii_lower ascii_word 10 (chr ",")
           (lit "very good") tt).
  - vm_compute. discriminate.
  - intros c Hc. unfold ascii_word. unfold is_0_9 in Hc. by rewrite Hc.
  - vm_compute. reflexivity.
  - reflexivity.
Defined.

(** What the pattern makes of other cells: a sign and a fraction are
    dropped, a number above 10 is not a number, and [NaN] wins over a
    digit. *)
Example process_element_runs :
  let run (cell : string) :=
    fst (process_element ascii_lower ascii_word (Some (lit cell)) tt) in
  run "7,good"%string = Returned (Some 7%Z)
  /\ run "-5"%string = Returned (Some 5%Z)
  /\ run "3.5"%string = Returned (Some 3%Z)
  /\ run "7/10"%string = Returned (Some 7%Z)
  /\ run "100"%string = Returned None
  /\ run "NaN, 3"%string = Returned None
  /\ run "no number"%string = Returned None
  /\ fst (process_element (S := unit) ascii_lower ascii_word None tt) = Returned None.
Proof. vm_compute. repeat split. Qed.
